(** * bluetti_monitor: the monitor service

    A shallow embedding of [bluetti_monitor/monitor_service.py]: the field
    schema, the table descriptors, the device list, the command handler
    [_handle_command] and the persistence loop [_handle_message], followed
    by the properties of the service's specification that concern them.

    Python [str] values are Rocq strings whose characters are read as code
    points below 256; [bytes] values are Rocq strings read as bytes.  A
    [dict] is an association list in insertion order. *)

From Stdlib Require Import String Ascii List ZArith NArith Bool Arith Lia.
From Stdlib Require Import DecimalString.
Import ListNotations.
Open Scope list_scope.
Open Scope string_scope.

Set Implicit Arguments.

(** ** The parts of the Python runtime the service relies on *)

Module Py.

(** Exceptions the service can let escape.  [MariadbError] carries the
    text of the database driver's error. *)
Inductive exn : Type :=
| UnicodeDecodeError
| ValueError
| TypeError
| AttributeError
| AssertionError (msg : string)
| MariadbError (cause : string).

(** Values that travel through the service.  [VObj] is any other
    non-iterable object (a [Decimal], a member of an [Enum], a float),
    given by the texts [str()] and [repr()] return for it. *)
#[warnings="-register-all"]
Inductive value : Type :=
| VInt (z : Z)
| VBool (b : bool)
| VStr (s : string)
| VObj (str_text repr_text : string)
| VList (l : list value).

Definition code (c : ascii) : N := N_of_ascii c.

Definition between (lo hi : N) (c : ascii) : bool :=
  ((lo <=? code c) && (code c <=? hi))%N.

Definition is_ascii_digit (c : ascii) : bool := between 48 57 c.

Definition digit_value (c : ascii) : Z := Z.of_N (code c) - 48.

(** [Py_ISSPACE] on the characters of an ASCII string. *)
Definition is_space (c : ascii) : bool :=
  between 9 13 c || (code c =? 32)%N.

(** *** Strings *)

Fixpoint take (n : nat) (s : string) : string :=
  match n, s with
  | S n', String c r => String c (take n' r)
  | _, _ => EmptyString
  end.

(** [s[:-k]] *)
Definition slice_to_neg (k : nat) (s : string) : string :=
  take (String.length s - k) s.

(** [s * n] *)
Fixpoint str_mul (s : string) (n : nat) : string :=
  match n with
  | O => EmptyString
  | S n' => s ++ str_mul s n'
  end.

(** [sep.join(l)] *)
Fixpoint join (sep : string) (l : list string) : string :=
  match l with
  | [] => EmptyString
  | [x] => x
  | x :: r => x ++ sep ++ join sep r
  end.

Fixpoint contains_char (c : ascii) (s : string) : bool :=
  match s with
  | EmptyString => false
  | String d r => Ascii.eqb c d || contains_char c r
  end.

Fixpoint all_chars (p : ascii -> bool) (s : string) : bool :=
  match s with
  | EmptyString => true
  | String c r => p c && all_chars p r
  end.

(** The longest prefix of [s] whose characters satisfy [p], and the rest. *)
Fixpoint span (p : ascii -> bool) (s : string) : string * string :=
  match s with
  | EmptyString => (EmptyString, EmptyString)
  | String c r =>
      if p c then let (a, b) := span p r in (String c a, b)
      else (EmptyString, s)
  end.

Fixpoint strip_prefix (p s : string) : option string :=
  match p, s with
  | EmptyString, _ => Some s
  | String a p', String b s' =>
      if Ascii.eqb a b then strip_prefix p' s' else None
  | String _ _, EmptyString => None
  end.

Definition is_empty (s : string) : bool :=
  match s with EmptyString => true | _ => false end.

(** *** [bytes.decode('ascii')] *)

Definition decode_ascii (b : string) : exn + string :=
  if all_chars (fun c => (code c <? 128)%N) b then inr b
  else inl UnicodeDecodeError.

(** *** [str()] and [repr()] *)

Definition str_of_Z (z : Z) : string := NilZero.string_of_int (Z.to_int z).

Definition hex_digit (n : N) : ascii :=
  if (n <? 10)%N then ascii_of_N (48 + n) else ascii_of_N (87 + n).

(** A code point below 256 that [repr] prints as it is. *)
Definition is_printable (c : ascii) : bool :=
  between 32 126 c || (between 161 255 c && negb (code c =? 173)%N).

Definition repr_char (quote c : ascii) : string :=
  if Ascii.eqb c quote || Ascii.eqb c "\"%char then String "\" (String c "")
  else if (code c =? 9)%N then "\t"
  else if (code c =? 10)%N then "\n"
  else if (code c =? 13)%N then "\r"
  else if is_printable c then String c ""
  else String "\" (String "x" (String (hex_digit (code c / 16))
                                 (String (hex_digit (code c mod 16)) ""))).

Fixpoint repr_chars (quote : ascii) (s : string) : string :=
  match s with
  | EmptyString => EmptyString
  | String c r => repr_char quote c ++ repr_chars quote r
  end.

Definition squote : ascii := "'"%char.
Definition dquote : ascii := ascii_of_N 34.

(** [repr(s)] for a [str]: single quotes, unless the text holds a single
    quote and no double quote. *)
Definition repr_str (s : string) : string :=
  let q := if contains_char squote s && negb (contains_char dquote s)
           then dquote else squote in
  String q (repr_chars q s ++ String q "").

Fixpoint repr (v : value) : string :=
  match v with
  | VInt z => str_of_Z z
  | VBool b => if b then "True" else "False"
  | VStr s => repr_str s
  | VObj _ r => r
  | VList l =>
      "[" ++ join ", " ((fix reprs (l : list value) : list string :=
                           match l with
                           | [] => []
                           | x :: r => repr x :: reprs r
                           end) l) ++ "]"
  end.

Definition str (v : value) : string :=
  match v with
  | VStr s => s
  | VObj s _ => s
  | _ => repr v
  end.

(** [[x for x in v]]: the elements of an iterable, or [TypeError]. *)
Fixpoint chars_of (s : string) : list value :=
  match s with
  | EmptyString => []
  | String c r => VStr (String c "") :: chars_of r
  end.

Definition iterate (v : value) : exn + list value :=
  match v with
  | VList l => inr l
  | VStr s => inr (chars_of s)
  | _ => inl TypeError
  end.

(** [type(v) != type(True)] *)
Definition is_not_bool (v : value) : bool :=
  match v with VBool _ => false | _ => true end.

(** *** [int(s)] for an ASCII [str], base ten

    Leading white space, an optional sign, digits with single
    underscores between them, trailing white space.  [max_str_digits]
    is the interpreter's limit on the number of digits
    ([sys.get_int_max_str_digits()], nought for no limit); it is only
    consulted above 640 digits. *)

Fixpoint lstrip (s : string) : string :=
  match s with
  | String c r => if is_space c then lstrip r else s
  | EmptyString => EmptyString
  end.

Definition is_underscore (c : ascii) : bool := (code c =? 95)%N.

(** The scan over digits and underscores: the value read so far, the
    number of digits, whether the previous character was an underscore. *)
Fixpoint scan_digits (s : string) (acc : Z) (digits : nat) (prev_us : bool)
  : option (Z * nat * string) :=
  match s with
  | String c r =>
      if is_ascii_digit c then
        scan_digits r (10 * acc + digit_value c) (S digits) false
      else if is_underscore c then
        if prev_us then None else scan_digits r acc digits true
      else
        if prev_us then None else Some (acc, digits, s)
  | EmptyString => if prev_us then None else Some (acc, digits, EmptyString)
  end.

Definition exceeds_limit (max_str_digits digits : nat) : bool :=
  (640 <? digits)%nat && (0 <? max_str_digits)%nat
  && (max_str_digits <? digits)%nat.

(** The optional sign in front of the digits. *)
Definition split_sign (s : string) : bool * string :=
  match s with
  | String c r =>
      if (code c =? 43)%N then (false, r)
      else if (code c =? 45)%N then (true, r)
      else (false, s)
  | EmptyString => (false, s)
  end.

(** The digits and what follows them. *)
Definition int_of_digits (max_str_digits : nat) (negative : bool) (s : string)
  : exn + Z :=
  match s with
  | String c _ =>
      if is_underscore c then inl ValueError
      else
        match scan_digits s 0 0 false with
        | None => inl ValueError
        | Some (acc, digits, rest) =>
            if exceeds_limit max_str_digits digits then inl ValueError
            else if (digits =? 0)%nat then inl ValueError
            else if is_empty (lstrip rest)
                 then inr (if negative then - acc else acc)%Z
                 else inl ValueError
        end
  | EmptyString => inl ValueError
  end.

Definition int_of_str (max_str_digits : nat) (s : string) : exn + Z :=
  let (negative, digits) := split_sign (lstrip s) in
  int_of_digits max_str_digits negative digits.

End Py.

(** ** Field schema *)

Inductive MessageFieldType : Type := NUMERIC | BOOL | ENUM | BUTTON.

Definition MessageFieldType_eqb (a b : MessageFieldType) : bool :=
  match a, b with
  | NUMERIC, NUMERIC | BOOL, BOOL | ENUM, ENUM | BUTTON, BUTTON => true
  | _, _ => false
  end.

Definition MessageFieldType_name (t : MessageFieldType) : string :=
  match t with
  | NUMERIC => "NUMERIC" | BOOL => "BOOL" | ENUM => "ENUM" | BUTTON => "BUTTON"
  end.

(** What the [type] attribute of a field configuration holds.  The
    dataclass annotates it [MessageFieldType] and does not check the
    annotation, so any other object, given by its [str()] text, can sit
    there as well. *)
Inductive type_attr : Type :=
| Member (t : MessageFieldType)
| Foreign (text : string).

Definition type_attr_eq (a : type_attr) (t : MessageFieldType) : bool :=
  match a with
  | Member u => MessageFieldType_eqb u t
  | Foreign _ => false
  end.

Definition type_attr_str (a : type_attr) : string :=
  match a with
  | Member t => "MessageFieldType." ++ MessageFieldType_name t
  | Foreign text => text
  end.

(** [home_assistant_extra], the display metadata for Home Assistant, plays
    no part in the service's control flow and is left out. *)
Module MessageFieldConfig.
Record t : Type := {
  type : type_attr;
  setter : bool;
  advanced : bool;
  id_override : option string
}.
End MessageFieldConfig.

Module DBTableConfig.
Record t : Type := {
  table_name : string;
  fields : list string
}.
End DBTableConfig.

(** [k in d] and [d[k]] on a dict kept as an association list. *)
Fixpoint dict_get {A : Type} (k : string) (d : list (string * A)) : option A :=
  match d with
  | [] => None
  | (k', v) :: r => if String.eqb k k' then Some v else dict_get k r
  end.

(** [x in l] on a list of strings. *)
Definition str_in (x : string) (l : list string) : bool :=
  existsb (String.eqb x) l.

Definition DATABASE_TABLES : list (string * DBTableConfig.t) :=
  [ ("general_data",
     {| DBTableConfig.table_name := "general_data";
        DBTableConfig.fields :=
          ["device_type"; "serial_number"; "arm_version"; "dsp_version";
           "dc_input_power"; "ac_input_power"; "ac_output_power";
           "dc_output_power"; "power_generation"; "total_battery_percent";
           "ac_output_on"; "dc_output_on"] |});
    ("internal_data",
     {| DBTableConfig.table_name := "internal_data";
        DBTableConfig.fields :=
          ["ac_output_mode"; "internal_ac_voltage"; "internal_current_one";
           "internal_power_one"; "internal_ac_frequency";
           "internal_current_two"; "internal_power_two"; "ac_input_voltage";
           "internal_current_three"; "internal_power_three";
           "ac_input_frequency"; "internal_dc_input_voltage";
           "internal_dc_input_power"; "internal_dc_input_current"] |});
    ("setting_data",
     {| DBTableConfig.table_name := "settings_data";
        DBTableConfig.fields :=
          ["ups_mode"; "split_phase_on"; "split_phase_machine_mode";
           "pack_num"; "ac_output_on"; "dc_output_on"; "grid_charge_on";
           "time_control_on"; "battery_range_start"; "battery_range_end";
           "bluetooth_connected"; "auto_sleep_mode"] |});
    ("battery_pack_data",
     {| DBTableConfig.table_name := "battery_pack_data";
        DBTableConfig.fields :=
          ["pack_num_max"; "total_battery_voltage"; "pack_num";
           "pack_voltage"; "pack_battery_percent"; "cell_voltages"] |}) ].

Definition field_config (t : MessageFieldType) (setter advanced : bool)
  : MessageFieldConfig.t :=
  {| MessageFieldConfig.type := Member t;
     MessageFieldConfig.setter := setter;
     MessageFieldConfig.advanced := advanced;
     MessageFieldConfig.id_override := None |}.

Definition NORMAL_DEVICE_FIELDS : list (string * MessageFieldConfig.t) :=
  [ ("dc_input_power", field_config NUMERIC false false);
    ("ac_input_power", field_config NUMERIC false false);
    ("ac_output_power", field_config NUMERIC false false);
    ("dc_output_power", field_config NUMERIC false false);
    ("power_generation", field_config NUMERIC false false);
    ("total_battery_percent", field_config NUMERIC false false);
    ("ac_output_on", field_config BOOL true false);
    ("dc_output_on", field_config BOOL true false);
    ("ac_output_mode", field_config ENUM false true);
    ("internal_ac_voltage", field_config NUMERIC false true);
    ("internal_current_one", field_config NUMERIC false true);
    ("internal_power_one", field_config NUMERIC false true);
    ("internal_ac_frequency", field_config NUMERIC false true);
    ("internal_current_two", field_config NUMERIC false true);
    ("internal_power_two", field_config NUMERIC false true);
    ("ac_input_voltage", field_config NUMERIC false true);
    ("internal_current_three", field_config NUMERIC false true);
    ("internal_power_three", field_config NUMERIC false true);
    ("ac_input_frequency", field_config NUMERIC false true);
    ("total_battery_voltage", field_config NUMERIC false true);
    ("total_battery_current", field_config NUMERIC false true);
    ("ups_mode", field_config ENUM true false);
    ("split_phase_on", field_config BOOL false false);
    ("split_phase_machine_mode", field_config ENUM false false);
    ("grid_charge_on", field_config BOOL true false);
    ("time_control_on", field_config BOOL true false);
    ("battery_range_start", field_config NUMERIC true false);
    ("battery_range_end", field_config NUMERIC true false);
    ("led_mode", field_config ENUM true false);
    ("power_off", field_config BUTTON true false);
    ("auto_sleep_mode", field_config ENUM true false);
    ("eco_on", field_config BOOL true false);
    ("eco_shutdown", field_config ENUM true false);
    ("charging_mode", field_config ENUM true false);
    ("power_lifting_on", field_config BOOL true false) ].

Definition DC_INPUT_FIELDS : list (string * MessageFieldConfig.t) :=
  [ ("dc_input_voltage1", field_config NUMERIC false false);
    ("dc_input_power1", field_config NUMERIC false false);
    ("dc_input_current1", field_config NUMERIC false false) ].

(** ** Devices and bus messages

    [bluetti_monitor.core] and [bluetti_monitor.bus] are used through the
    attributes below only.  The type of device commands is left open. *)

Module BluettiDevice.
(** [oid] is the identity of the Python object. *)
Record t (DeviceCommand : Type) : Type := {
  oid : nat;
  type : string;
  sn : string;
  has_field_setter : string -> bool;
  build_setter_command : string -> Py.value -> DeviceCommand
}.

(** Modelled from the spec: the class [BluettiDevice] lives in
    [bluetti_monitor.core], which is not part of the sources at hand.
    The specification records that membership in the device list "used
    default object equality": the class defines no [__eq__], so [==] on
    devices is identity of objects. *)
Definition eqb {DeviceCommand : Type} (a b : t DeviceCommand) : bool :=
  (oid a =? oid b)%nat.
End BluettiDevice.

Module ParserMessage.
Record t (DeviceCommand : Type) : Type := {
  device : BluettiDevice.t DeviceCommand;
  parsed : list (string * Py.value)
}.
End ParserMessage.

Module CommandMessage.
Record t (DeviceCommand : Type) : Type := {
  device : BluettiDevice.t DeviceCommand;
  command : DeviceCommand
}.
End CommandMessage.

Module MQTTMessage.
Record t : Type := {
  topic : string;
  payload : string
}.
End MQTTMessage.

(** ** The command topic

    [COMMAND_TOPIC_RE] is
    [^bluetti/command/(\w+)-(\d+)/([a-z_]+)$], applied with [match].  No
    character of a class is the delimiter that follows it, so each group
    is the longest run of its class; [$] accepts the end of the topic and
    also a single newline that ends it. *)

(** [\w] on code points below 256: letters, digits and numerics of
    Latin-1, and the underscore. *)
Definition is_word (c : ascii) : bool :=
  Py.between 48 57 c || Py.between 65 90 c || Py.between 97 122 c
  || Py.is_underscore c
  || (Py.code c =? 170)%N || Py.between 178 179 c || (Py.code c =? 181)%N
  || Py.between 185 186 c || Py.between 188 190 c || Py.between 192 214 c
  || Py.between 216 246 c || Py.between 248 255 c.

(** [\d] on code points below 256. *)
Definition is_decimal (c : ascii) : bool := Py.is_ascii_digit c.

(** [[a-z_]] *)
Definition is_lower_or_underscore (c : ascii) : bool :=
  Py.between 97 122 c || Py.is_underscore c.

Definition newline : string := String (ascii_of_N 10) "".

Definition at_end (rest : string) : bool :=
  Py.is_empty rest || String.eqb rest newline.

(** The three groups [m[1]], [m[2]], [m[3]] of a match, or [None]. *)
Definition COMMAND_TOPIC_RE_match (topic : string)
  : option (string * string * string) :=
  match Py.strip_prefix "bluetti/command/" topic with
  | None => None
  | Some r0 =>
      let (m1, r1) := Py.span is_word r0 in
      if Py.is_empty m1 then None else
      match Py.strip_prefix "-" r1 with
      | None => None
      | Some r2 =>
          let (m2, r3) := Py.span is_decimal r2 in
          if Py.is_empty m2 then None else
          match Py.strip_prefix "/" r3 with
          | None => None
          | Some r4 =>
              let (m3, r5) := Py.span is_lower_or_underscore r4 in
              if Py.is_empty m3 then None
              else if at_end r5 then Some (m1, m2, m3)
              else None
          end
      end
  end.

(** ** The service *)

(** What reaches the database through the connection: [cursor.execute]
    with its query and parameters, and [commit]. *)
Inductive db_op : Type :=
| Execute (query : string) (values : list Py.value)
| Commit.

Section Service.

Variable DeviceCommand : Type.

Local Abbreviation Device := (BluettiDevice.t DeviceCommand).

(** [devices] is the list of registered devices.  [conn] is what
    [initDB] returned: [None] when connecting failed, otherwise the
    operations the connection has carried out so far. *)
Record MonitorService : Type := {
  devices : list Device;
  conn : option (list db_op)
}.

(** *** [_handle_messages]: registering a device on first sight *)

(** [device in self.devices]: identity first, [==] next. *)
Definition device_in (device : Device) (l : list Device) : bool :=
  existsb (fun d => (BluettiDevice.oid d =? BluettiDevice.oid device)%nat
                    || BluettiDevice.eqb device d) l.

Definition _init_device (self : MonitorService) (device : Device)
  : MonitorService :=
  {| devices := (devices self ++ [device])%list; conn := conn self |}.

(** The two lines of [_handle_messages] that register the device of a
    message, with the outcome of the membership test. *)
Definition register_if_absent (self : MonitorService) (device : Device)
  : MonitorService * bool :=
  if negb (device_in device (devices self))
  then (_init_device self device, true)
  else (self, false).

(** *** [_handle_command] *)

(** What a call of [_handle_command] does: the warnings it logs, the
    messages it puts on the bus, the exception it lets escape. *)
Record handled : Type := {
  log : list string;
  bus_put : list (CommandMessage.t DeviceCommand);
  raised : option Py.exn
}.

Definition warn_and_return (text : string) : handled :=
  {| log := [text]; bus_put := []; raised := None |}.

Definition raise (e : Py.exn) : handled :=
  {| log := []; bus_put := []; raised := Some e |}.

Definition put (m : CommandMessage.t DeviceCommand) : handled :=
  {| log := []; bus_put := [m]; raised := None |}.

(** [next((d for d in self.devices if d.type == m[1] and d.sn == m[2]), None)] *)
Definition find_device (l : list Device) (m1 m2 : string) : option Device :=
  find (fun d => String.eqb (BluettiDevice.type d) m1
                 && String.eqb (BluettiDevice.sn d) m2) l.

Section Command.

(** The interpreter's limit on the digits of an integer literal. *)
Variable max_str_digits : nat.

(** The field table the handler consults; the service runs it on
    [NORMAL_DEVICE_FIELDS]. *)
Variable device_fields : list (string * MessageFieldConfig.t).

(** The branch on the kind of the field: the command to send, or the
    exception raised while decoding the payload. *)
Definition decode_command (device : Device) (name : string)
           (field : MessageFieldConfig.t) (payload : string)
  : Py.exn + DeviceCommand :=
  let type := MessageFieldConfig.type field in
  if type_attr_eq type ENUM then
    match Py.decode_ascii payload with
    | inl e => inl e
    | inr value =>
        inr (BluettiDevice.build_setter_command device name (Py.VStr value))
    end
  else if type_attr_eq type BOOL || type_attr_eq type BUTTON then
    let value := String.eqb payload "ON" in
    inr (BluettiDevice.build_setter_command device name (Py.VBool value))
  else if type_attr_eq type NUMERIC then
    match Py.decode_ascii payload with
    | inl e => inl e
    | inr text =>
        match Py.int_of_str max_str_digits text with
        | inl e => inl e
        | inr value =>
            inr (BluettiDevice.build_setter_command device name
                   (Py.VInt value))
        end
    end
  else
    inl (Py.AssertionError
           ("unexpected enum type: " ++ type_attr_str type)).

Definition handle_command_on (self : MonitorService)
           (mqtt_message : MQTTMessage.t) : handled :=
  let topic := MQTTMessage.topic mqtt_message in
  match COMMAND_TOPIC_RE_match topic with
  | None => warn_and_return ("unknown command topic: " ++ topic)
  | Some (m1, m2, m3) =>
      match find_device (devices self) m1 m2 with
      | None => warn_and_return ("unknown device: " ++ m1 ++ " " ++ m2)
      | Some device =>
          if negb (BluettiDevice.has_field_setter device m3) then
            warn_and_return
              ("Received command for unknown topic: " ++ m3 ++ " - "
               ++ topic)
          else
            match dict_get m3 device_fields with
            | Some field =>
                match decode_command device m3 field
                        (MQTTMessage.payload mqtt_message) with
                | inl e => raise e
                | inr cmd =>
                    put {| CommandMessage.device := device;
                           CommandMessage.command := cmd |}
                end
            | None =>
                warn_and_return
                  ("Received command for unhandled topic: " ++ m3
                   ++ " - " ++ topic)
            end
      end
  end.

End Command.

Definition _handle_command (max_str_digits : nat) (self : MonitorService)
           (mqtt_message : MQTTMessage.t) : handled :=
  handle_command_on max_str_digits NORMAL_DEVICE_FIELDS self mqtt_message.

End Service.

(** ** Persistence: [_handle_message] *)

Section Persistence.

Variable DeviceCommand : Type.

(** The database server, seen from the connection: [db_error history op]
    is the text of the [mariadb.Error] raised when [op] is attempted
    after the operations of [history], and [None] when [op] goes
    through. *)
Variable db_error : list db_op -> db_op -> option string.

(** The value appended to [values] for one item of [msg.parsed]: the cell
    voltages are first turned into the list of their [str()] texts, then
    anything but a [bool] is passed through [str()]. *)
Definition convert_value (name : string) (value : Py.value)
  : Py.exn + Py.value :=
  match (if String.eqb name "cell_voltages"
         then match Py.iterate value with
              | inl e => inl e
              | inr l => inr (Py.VList (map (fun v => Py.VStr (Py.str v)) l))
              end
         else inr value) with
  | inl e => inl e
  | inr value =>
      inr (if Py.is_not_bool value then Py.VStr (Py.str value) else value)
  end.

(** How the inner [for ... else] loop over [msg.parsed.items()] ends: it
    runs to its end, with [valueOrder] and [values] built; it leaves
    through [break]; an exception escapes. *)
Inductive row_loop : Type :=
| Exhausted (valueOrder : string) (values : list Py.value)
| Broken
| Failed (e : Py.exn).

Fixpoint row_loop_run (fields : list string) (items : list (string * Py.value))
         (valueOrder : string) (values : list Py.value) : row_loop :=
  match items with
  | [] => Exhausted valueOrder values
  | (name, value) :: rest =>
      if negb (str_in name fields) then Broken
      else
        let valueOrder := valueOrder ++ name ++ ", " in
        match convert_value name value with
        | inl e => Failed e
        | inr v => row_loop_run fields rest valueOrder (values ++ [v])%list
        end
  end.

Definition insert_query (table_name valueOrder : string)
           (values : list Py.value) : string :=
  "INSERT INTO " ++ table_name ++ " (device, "
  ++ Py.slice_to_neg 2 valueOrder ++ ") VALUES ("
  ++ Py.slice_to_neg 2 (Py.str_mul "%s, " (length values)) ++ ")".

(** The body of the [else] branch: [self.conn.cursor()],
    [cursor.execute(query, values)], [cursor.close()],
    [self.conn.commit()]. *)
Definition insert_and_commit (conn : option (list db_op)) (query : string)
           (values : list Py.value) : option (list db_op) * option Py.exn :=
  match conn with
  | None => (None, Some Py.AttributeError)
  | Some history =>
      match db_error history (Execute query values) with
      | Some cause => (Some history, Some (Py.MariadbError cause))
      | None =>
          let history := (history ++ [Execute query values])%list in
          match db_error history Commit with
          | Some cause => (Some history, Some (Py.MariadbError cause))
          | None => (Some (history ++ [Commit])%list, None)
          end
      end
  end.

(** The outer loop over [DATABASE_TABLES.items()]. *)
Fixpoint tables_loop (tables : list (string * DBTableConfig.t))
         (device_name : string) (parsed : list (string * Py.value))
         (conn : option (list db_op)) : option (list db_op) * option Py.exn :=
  match tables with
  | [] => (conn, None)
  | (tableName, tableConfig) :: rest =>
      match row_loop_run (DBTableConfig.fields tableConfig) parsed
              "" [Py.VStr device_name] with
      | Broken => tables_loop rest device_name parsed conn
      | Failed e => (conn, Some e)
      | Exhausted valueOrder values =>
          let query :=
            insert_query (DBTableConfig.table_name tableConfig) valueOrder
              values in
          match insert_and_commit conn query values with
          | (conn, None) => tables_loop rest device_name parsed conn
          | (conn, Some e) => (conn, Some e)
          end
      end
  end.

Definition device_name_of (device : BluettiDevice.t DeviceCommand) : string :=
  BluettiDevice.type device ++ "-" ++ BluettiDevice.sn device.

Definition _handle_message (self : MonitorService DeviceCommand)
           (msg : ParserMessage.t DeviceCommand)
  : MonitorService DeviceCommand * option Py.exn :=
  let device_name := device_name_of (ParserMessage.device msg) in
  let (conn, e) :=
    tables_loop DATABASE_TABLES device_name (ParserMessage.parsed msg)
      (conn self) in
  ({| devices := devices self; conn := conn |}, e).

(** One turn of the loop of [_handle_messages], for the message taken from
    the queue. *)
Definition handle_messages_turn (self : MonitorService DeviceCommand)
           (msg : ParserMessage.t DeviceCommand)
  : MonitorService DeviceCommand * option Py.exn :=
  let self := fst (register_if_absent self (ParserMessage.device msg)) in
  _handle_message self msg.

(** [_handle_messages] on the messages that reach the queue, until an
    exception escapes. *)
Fixpoint _handle_messages (self : MonitorService DeviceCommand)
         (queue : list (ParserMessage.t DeviceCommand))
  : MonitorService DeviceCommand * option Py.exn :=
  match queue with
  | [] => (self, None)
  | msg :: rest =>
      match handle_messages_turn self msg with
      | (self, None) => _handle_messages self rest
      | (self, Some e) => (self, Some e)
      end
  end.

End Persistence.

(** The inserts into one table among the operations of a connection. *)
Definition is_insert_into (table_name : string) (op : db_op) : bool :=
  match op with
  | Execute query _ =>
      String.prefix ("INSERT INTO " ++ table_name ++ " (") query
  | Commit => false
  end.

Definition inserts_into (table_name : string) (ops : list db_op) : list db_op :=
  filter (is_insert_into table_name) ops.

(** ** Sample runs *)

Module Samples.

(** A device whose commands are the pairs of a field and a value. *)
Definition ac200 (oid : nat) : BluettiDevice.t (string * Py.value) :=
  {| BluettiDevice.oid := oid;
     BluettiDevice.type := "AC200";
     BluettiDevice.sn := "100";
     BluettiDevice.has_field_setter :=
       fun name => str_in name ["ac_output_on"; "battery_range_start";
                                "ups_mode"; "power_off"];
     BluettiDevice.build_setter_command := fun name v => (name, v) |}.

(** A server that accepts everything. *)
Definition accept_all : list db_op -> db_op -> option string :=
  fun _ _ => None.

(** A server that refuses any insert into [settings_data]. *)
Definition refuse_settings : list db_op -> db_op -> option string :=
  fun _ op => if is_insert_into "settings_data" op
              then Some "Lock wait timeout exceeded" else None.

Definition fresh : MonitorService (string * Py.value) :=
  {| devices := []; conn := Some [] |}.

Definition event (parsed : list (string * Py.value))
  : ParserMessage.t (string * Py.value) :=
  {| ParserMessage.device := ac200 1; ParserMessage.parsed := parsed |}.

Definition battery_pack_event : ParserMessage.t (string * Py.value) :=
  event [("pack_num_max", Py.VInt 2);
         ("total_battery_voltage", Py.VObj "53.1" "Decimal('53.1')");
         ("pack_num", Py.VInt 1);
         ("pack_voltage", Py.VObj "53.0" "Decimal('53.0')");
         ("pack_battery_percent", Py.VInt 87);
         ("cell_voltages", Py.VList [Py.VObj "3.31" "Decimal('3.31')";
                                     Py.VObj "3.32" "Decimal('3.32')"])].

Definition decimal (text : string) : Py.value :=
  Py.VObj text ("Decimal('" ++ text ++ "')").

(** The table descriptor under a key of [DATABASE_TABLES]. *)
Definition table (key : string) : DBTableConfig.t :=
  match dict_get key DATABASE_TABLES with
  | Some tableConfig => tableConfig
  | None => {| DBTableConfig.table_name := ""; DBTableConfig.fields := [] |}
  end.

(** The twelve fields of [general_data] in their declared order, and one
    field more. *)
Definition general_and_more_event : ParserMessage.t (string * Py.value) :=
  event [("device_type", Py.VStr "AC200");
         ("serial_number", Py.VInt 100);
         ("arm_version", decimal "4017.05");
         ("dsp_version", decimal "4016.13");
         ("dc_input_power", Py.VInt 0);
         ("ac_input_power", Py.VInt 0);
         ("ac_output_power", Py.VInt 120);
         ("dc_output_power", Py.VInt 0);
         ("power_generation", decimal "12.3");
         ("total_battery_percent", Py.VInt 87);
         ("ac_output_on", Py.VBool true);
         ("dc_output_on", Py.VBool false);
         ("total_battery_current", decimal "1.5")].

(** The six fields of [battery_pack_data], the last one first. *)
Definition battery_pack_reversed_event : ParserMessage.t (string * Py.value) :=
  event [("cell_voltages", Py.VList [decimal "3.31"; decimal "3.32"]);
         ("pack_battery_percent", Py.VInt 87);
         ("pack_voltage", decimal "53.0");
         ("pack_num", Py.VInt 1);
         ("total_battery_voltage", decimal "53.1");
         ("pack_num_max", Py.VInt 2)].

(** An event with the single field [pack_num], which two tables list. *)
Definition pack_num_event : ParserMessage.t (string * Py.value) :=
  event [("pack_num", Py.VInt 1)].

(** The service once the device [ac200 1] has been seen. *)
Definition registered : MonitorService (string * Py.value) :=
  fst (register_if_absent fresh (ac200 1)).

Definition command (field payload : string) : MQTTMessage.t :=
  {| MQTTMessage.topic := "bluetti/command/AC200-100/" ++ field;
     MQTTMessage.payload := payload |}.

(** A device that has a setter for every field, and a field table with an
    entry whose [type] is no member of [MessageFieldType]. *)
Definition lab_device : BluettiDevice.t (string * Py.value) :=
  {| BluettiDevice.oid := 7;
     BluettiDevice.type := "LAB";
     BluettiDevice.sn := "1";
     BluettiDevice.has_field_setter := fun _ => true;
     BluettiDevice.build_setter_command := fun name v => (name, v) |}.

Definition lab_fields : list (string * MessageFieldConfig.t) :=
  [ ("mystery",
     {| MessageFieldConfig.type := Foreign "7";
        MessageFieldConfig.setter := true;
        MessageFieldConfig.advanced := false;
        MessageFieldConfig.id_override := None |});
    ("power_off", field_config BUTTON true false) ].

Definition lab : MonitorService (string * Py.value) :=
  {| devices := [lab_device]; conn := None |}.

Definition lab_command (field payload : string) : MQTTMessage.t :=
  {| MQTTMessage.topic := "bluetti/command/LAB-1/" ++ field;
     MQTTMessage.payload := payload |}.

End Samples.

(** ** Notions used to state the properties *)

(** The value of a run of decimal digits, digit by digit from the left. *)
Fixpoint decimal_value (s : string) : Z :=
  match s with
  | EmptyString => 0
  | String c r =>
      Py.digit_value c * 10 ^ Z.of_nat (String.length r) + decimal_value r
  end.


(** The text [valueOrder] holds after the names of [names] have been
    appended to it one by one. *)
Fixpoint value_order (names : list string) : string :=
  match names with
  | [] => EmptyString
  | name :: rest => name ++ ", " ++ value_order rest
  end.

(** What one table contributes to the connection when nothing fails: the
    insert and its commit if the inner loop runs to its end, nothing
    otherwise. *)
Definition table_ops (device_name : string) (parsed : list (string * Py.value))
           (tableConfig : DBTableConfig.t) : list db_op :=
  match row_loop_run (DBTableConfig.fields tableConfig) parsed
          "" [Py.VStr device_name] with
  | Exhausted valueOrder values =>
      [Execute (insert_query (DBTableConfig.table_name tableConfig)
                  valueOrder values) values;
       Commit]
  | _ => []
  end.

Definition planned_ops (tables : list (string * DBTableConfig.t))
           (device_name : string) (parsed : list (string * Py.value))
  : list db_op :=
  flat_map (fun entry => table_ops device_name parsed (snd entry)) tables.

(** The item [(name, value)] of an event is passed to the database as [p]. *)
Definition passed_as (item : string * Py.value) (p : Py.value) : Prop :=
  convert_value (fst item) (snd item) = inr p.

(** Every name of the event is a field of the table: what the inner loop
    of [_handle_message] tests. *)
Definition within_table (tableConfig : DBTableConfig.t)
           (parsed : list (string * Py.value)) : bool :=
  forallb (fun item => str_in (fst item) (DBTableConfig.fields tableConfig))
    parsed.

(** Every field of the table is a name of the event: the test the
    specification describes, "required fields within present fields". *)
Definition covers_table (tableConfig : DBTableConfig.t)
           (parsed : list (string * Py.value)) : bool :=
  forallb (fun name => str_in name (map fst parsed))
    (DBTableConfig.fields tableConfig).

(** The value of the item can be converted for the database. *)
Definition convertible (item : string * Py.value) : bool :=
  match convert_value (fst item) (snd item) with
  | inr _ => true
  | inl _ => false
  end.

(** The field [cell_voltages], where the event has it, holds an array. *)
Definition cell_voltages_is_array (parsed : list (string * Py.value)) : bool :=
  forallb (fun item =>
             if String.eqb (fst item) "cell_voltages"
             then match snd item with Py.VList _ => true | _ => false end
             else true) parsed.

(** How the specification describes the parameter passed for a field: the
    cell voltages as the list of the texts of their elements, a boolean
    as it is, anything that is no boolean as its text.  The three cases
    exclude one another, so the parameter of a field is determined. *)
Inductive serialized_as : string -> Py.value -> Py.value -> Prop :=
| cell_voltages_as_list (elements : list Py.value) :
    serialized_as "cell_voltages" (Py.VList elements)
      (Py.VStr ("[" ++ Py.join ", "
                         (map (fun v => Py.repr_str (Py.str v)) elements)
                ++ "]"))
| boolean_as_it_is (name : string) (b : bool) :
    name <> "cell_voltages" ->
    serialized_as name (Py.VBool b) (Py.VBool b)
| other_as_its_text (name : string) (value : Py.value) :
    name <> "cell_voltages" ->
    (forall b : bool, value <> Py.VBool b) ->
    serialized_as name value (Py.VStr (Py.str value)).

(** *** The shape of a query *)

Definition is_char (n : N) (c : ascii) : bool := (Py.code c =? n)%N.

(** The number of [%s] in a query, counted from the left as [str.count]
    counts them. *)
Fixpoint count_placeholders (query : string) : nat :=
  match query with
  | String c r =>
      match r with
      | String d r' =>
          if is_char 37 c && is_char 115 d
          then S (count_placeholders r')
          else count_placeholders r
      | EmptyString => O
      end
  | EmptyString => O
  end.

(** The text between the first opening parenthesis of a query and the
    closing parenthesis that follows it. *)
Definition column_list (query : string) : string :=
  match snd (Py.span (fun c => negb (is_char 40 c)) query) with
  | String _ r => fst (Py.span (fun c => negb (is_char 41 c)) r)
  | EmptyString => EmptyString
  end.

Definition cons_first (c : ascii) (l : list string) : list string :=
  match l with
  | h :: t => String c h :: t
  | [] => [String c EmptyString]
  end.

(** [text.split(", ")] *)
Fixpoint split_comma_space (text : string) : list string :=
  match text with
  | EmptyString => [EmptyString]
  | String c r =>
      match r with
      | String d r' =>
          if is_char 44 c && is_char 32 d
          then EmptyString :: split_comma_space r'
          else cons_first c (split_comma_space r)
      | EmptyString => [String c EmptyString]
      end
  end.

(** The column names a query lists. *)
Definition column_names (query : string) : list string :=
  filter (fun name => negb (Py.is_empty name))
    (split_comma_space (column_list query)).

(** The characters of the names of an event joined by [", "]. *)
Definition is_plain (c : ascii) : bool :=
  is_lower_or_underscore c || is_char 44 c || is_char 32 c.

(** A name made of lower-case letters and underscores, as every field of
    the four tables is. *)
Definition is_identifier (name : string) : bool :=
  Py.all_chars is_lower_or_underscore name && negb (Py.is_empty name).

(** ** What the specification calls a dropped request

    A warning is logged, nothing is put on the bus and no exception
    escapes the handler. *)
Definition logged_and_dropped {DeviceCommand : Type}
           (r : handled DeviceCommand) : Prop :=
  log r <> [] /\ bus_put r = [] /\ raised r = None.

(** ** The life of the service: [__init__], [initDB] and [run] *)

Section Life.

Variable DeviceCommand : Type.

(** [initDB]: [connect_error] is the text of the [mariadb.Error] raised by
    [mariadb.connect], [None] when the connection is made.  The result is
    the connection and the line logged. *)
Definition initDB (connect_error : option string)
  : option (list db_op) * string :=
  match connect_error with
  | None => (Some [], "successfully connected to database")
  | Some _ => (None, "failed to connect to database")
  end.

(** [MonitorService.__init__]: no device yet, the connection of [initDB].
    The bus and the credentials play no further part here. *)
Definition __init__ (connect_error : option string)
  : MonitorService DeviceCommand :=
  {| devices := []; conn := fst (initDB connect_error) |}.

(** What [run] leaves behind: the service, whether [self.conn.close()] was
    carried out, the lines logged by [run] itself, the exception that
    escapes the task. *)
Record run_outcome : Type := {
  service : MonitorService DeviceCommand;
  closed : bool;
  run_log : list string;
  escaped : option Py.exn
}.

(** [run], for the messages the listener [handle_message] puts on the
    queue before the task is cancelled.  [_handle_commands] returns at
    once, so the [gather] lasts as long as [_handle_messages], which never
    returns: either an exception escapes it, and then [run] as well, since
    only [CancelledError] is caught; or it is left waiting on the empty
    queue, where the cancellation reaches it, and the handler of
    [CancelledError] closes the connection. *)
Definition run (db_error : list db_op -> db_op -> option string)
           (self : MonitorService DeviceCommand)
           (queue : list (ParserMessage.t DeviceCommand)) : run_outcome :=
  match _handle_messages db_error self queue with
  | (self, Some e) =>
      {| service := self; closed := false; run_log := []; escaped := Some e |}
  | (self, None) =>
      match conn self with
      | None =>
          {| service := self; closed := false; run_log := [];
             escaped := Some Py.AttributeError |}
      | Some _ =>
          {| service := self; closed := true;
             run_log := ["Closed database connection"]; escaped := None |}
      end
  end.

End Life.

(** ** Further notions used to state the properties *)

(** A command reaches the branch on the kind of its field: the topic
    matches, the device is registered and has a setter for the field, and
    the field is in the table. *)
Definition routed {DeviceCommand : Type}
           (device_fields : list (string * MessageFieldConfig.t))
           (self : MonitorService DeviceCommand)
           (mqtt_message : MQTTMessage.t) : Prop :=
  exists m1 m2 m3 device field,
    COMMAND_TOPIC_RE_match (MQTTMessage.topic mqtt_message)
    = Some (m1, m2, m3)
    /\ find_device (devices self) m1 m2 = Some device
    /\ BluettiDevice.has_field_setter device m3 = true
    /\ dict_get m3 device_fields = Some field.

(** Two field tables with the same keys in the same order and the same
    kind under each key. *)
Definition same_kinds (a b : list (string * MessageFieldConfig.t)) : Prop :=
  Forall2 (fun x y => fst x = fst y
                      /\ MessageFieldConfig.type (snd x)
                         = MessageFieldConfig.type (snd y)) a b.

(** The text of a command topic. *)
Definition command_topic (type serial field : string) : string :=
  "bluetti/command/" ++ type ++ "-" ++ serial ++ "/" ++ field.

Definition is_execute (op : db_op) : bool :=
  match op with Execute _ _ => true | Commit => false end.

(** The operations come in pairs of an insert and its commit. *)
Fixpoint fully_committed (ops : list db_op) : bool :=
  match ops with
  | [] => true
  | Execute _ _ :: rest =>
      match rest with
      | Commit :: rest' => fully_committed rest'
      | _ => false
      end
  | Commit :: _ => false
  end.

(** The operations come in pairs of an insert and its commit, but for a
    last insert that may lack its commit. *)
Fixpoint in_transactions (ops : list db_op) : bool :=
  match ops with
  | [] => true
  | Execute _ _ :: rest =>
      match rest with
      | [] => true
      | Commit :: rest' => in_transactions rest'
      | Execute _ _ :: _ => false
      end
  | Commit :: _ => false
  end.

(** The identities of the registered device objects. *)
Definition oids {DeviceCommand : Type}
           (l : list (BluettiDevice.t DeviceCommand)) : list nat :=
  map (@BluettiDevice.oid DeviceCommand) l.

(** Some table takes the event. *)
Definition fits_some_table (parsed : list (string * Py.value)) : bool :=
  existsb (fun entry => within_table (snd entry) parsed) DATABASE_TABLES.

(** What handling a message alone, on a fresh connection, makes the
    connection carry out. *)
Definition alone {DeviceCommand : Type}
           (db_error : list db_op -> db_op -> option string)
           (msg : ParserMessage.t DeviceCommand) : list db_op :=
  match conn (fst (_handle_message db_error
                     {| devices := []; conn := Some [] |} msg)) with
  | Some ops => ops
  | None => []
  end.

(** The keys of a field table. *)
Definition keys (d : list (string * MessageFieldConfig.t)) : list string :=
  map fst d.

(** More sample data. *)
Module Runs.

(** [NORMAL_DEVICE_FIELDS] with every field marked as not settable and
    advanced. *)
Definition flags_cleared : list (string * MessageFieldConfig.t) :=
  map (fun entry =>
         (fst entry,
          {| MessageFieldConfig.type := MessageFieldConfig.type (snd entry);
             MessageFieldConfig.setter := false;
             MessageFieldConfig.advanced := true;
             MessageFieldConfig.id_override := Some "x" |}))
      NORMAL_DEVICE_FIELDS.

(** The service after two device objects of the same type and serial
    number have been seen. *)
Definition twice : MonitorService (string * Py.value) :=
  fst (register_if_absent Samples.registered (Samples.ac200 2)).

(** An event with a field of no table. *)
Definition current_event : ParserMessage.t (string * Py.value) :=
  Samples.event [("total_battery_current", Samples.decimal "1.5")].

(** An event for [battery_pack_data] with a number where the array of
    cell voltages belongs. *)
Definition scalar_cells_event : ParserMessage.t (string * Py.value) :=
  Samples.event [("pack_num", Py.VInt 1); ("cell_voltages", Py.VInt 3)].

(** The twelve fields of [settings_data] in their declared order, six of
    them booleans. *)
Definition settings_event : ParserMessage.t (string * Py.value) :=
  Samples.event
    [("ups_mode", Py.VObj "UpsMode.CUSTOMIZED" "<UpsMode.CUSTOMIZED: 1>");
     ("split_phase_on", Py.VBool false);
     ("split_phase_machine_mode",
      Py.VObj "MachineAddress.SLAVE" "<MachineAddress.SLAVE: 0>");
     ("pack_num", Py.VInt 1);
     ("ac_output_on", Py.VBool true);
     ("dc_output_on", Py.VBool false);
     ("grid_charge_on", Py.VBool true);
     ("time_control_on", Py.VBool false);
     ("battery_range_start", Py.VInt 20);
     ("battery_range_end", Py.VInt 90);
     ("bluetooth_connected", Py.VBool true);
     ("auto_sleep_mode",
      Py.VObj "AutoSleepMode.FIVE_MINUTES" "<AutoSleepMode.FIVE_MINUTES: 4>")].

(** A server that refuses every commit. *)
Definition refuse_commit : list db_op -> db_op -> option string :=
  fun _ op => match op with
              | Commit => Some "Deadlock found"
              | Execute _ _ => None
              end.

End Runs.

(** * Properties *)

Unset Implicit Arguments.

Ltac bool_to_prop :=
  repeat match goal with
         | H : (_ && _)%bool = true |- _ => apply andb_true_iff in H; destruct H
         | H : (_ || _)%bool = false |- _ => apply orb_false_iff in H; destruct H
         | H : (_ <=? _)%N = true |- _ => apply N.leb_le in H
         | H : (_ <=? _)%N = false |- _ => apply N.leb_gt in H
         | H : (_ =? _)%N = true |- _ => apply N.eqb_eq in H
         | H : (_ =? _)%N = false |- _ => apply N.eqb_neq in H
         | H : (_ <? _)%N = true |- _ => apply N.ltb_lt in H
         | H : (_ <? _)%N = false |- _ => apply N.ltb_ge in H
         end.

(** ** Sample evaluations *)

Example int_of_str_samples :
  map (Py.int_of_str 4300)
      ["55"; " 55 "; "+55"; "-5"; "5_5"; "_5"; "5_"; "5__5"; "abc"; ""; "5 5";
       "- 5"; "007"; "5.0"; "+"]
  = [inr 55%Z; inr 55%Z; inr 55%Z; inr (-5)%Z; inr 55%Z; inl Py.ValueError;
     inl Py.ValueError; inl Py.ValueError; inl Py.ValueError;
     inl Py.ValueError; inl Py.ValueError; inl Py.ValueError; inr 7%Z;
     inl Py.ValueError; inl Py.ValueError].
Proof. vm_compute. reflexivity. Qed.

Example str_samples :
  map Py.str
      [Py.VInt 12; Py.VInt (-3); Py.VBool true; Py.VStr "a b";
       Py.VList [Py.VStr "3.30"; Py.VStr "3.31"]; Py.VList [];
       Py.VList [Py.VObj "3.30" "Decimal('3.30')"; Py.VInt 0]]
  = ["12"; "-3"; "True"; "a b"; "['3.30', '3.31']"; "[]";
     "[Decimal('3.30'), 0]"].
Proof. vm_compute. reflexivity. Qed.

Example COMMAND_TOPIC_RE_samples :
  map COMMAND_TOPIC_RE_match
      ["bluetti/command/AC200-100/ac_output_on";
       "bluetti/command/AC200-100/";
       "bluetti/command/AC200-100";
       "bluetti/command/AC-200-100/ac_output_on";
       "bluetti/command/AC200-100/ac_output_on/x";
       "bluetti/state/AC200-100/ac_output_on";
       "bluetti/command/AC200-100/ac_output_on" ++ newline;
       "bluetti/command/AC200-100/ac_output_on" ++ newline ++ newline]
  = [Some ("AC200", "100", "ac_output_on"); None; None; None; None; None;
     Some ("AC200", "100", "ac_output_on"); None].
Proof. vm_compute. reflexivity. Qed.

Example shape_samples :
  map (fun q => (count_placeholders q, column_names q))
      ["INSERT INTO settings_data (device, pack_num) VALUES (%s, %s)";
       "INSERT INTO general_data (device, ) VALUES (%s)"]
  = [(2%nat, ["device"; "pack_num"]); (1%nat, ["device"])].
Proof. reflexivity. Qed.

(** ** Strings *)

Lemma append_assoc (a b c : string) : (a ++ b) ++ c = a ++ b ++ c.
Proof. induction a as [|x a IH]; cbn; [reflexivity|now rewrite IH]. Qed.

Lemma append_nil_r (a : string) : a ++ "" = a.
Proof. induction a as [|x a IH]; cbn; [reflexivity|now rewrite IH]. Qed.

Lemma length_append (a b : string) :
  String.length (a ++ b) = (String.length a + String.length b)%nat.
Proof. induction a as [|x a IH]; cbn; [reflexivity|now rewrite IH]. Qed.

Lemma take_append (a b : string) : Py.take (String.length a) (a ++ b) = a.
Proof. induction a as [|x a IH]; cbn; [now destruct b|now rewrite IH]. Qed.

Lemma all_chars_append p (a b : string) :
  Py.all_chars p (a ++ b) = Py.all_chars p a && Py.all_chars p b.
Proof.
  induction a as [|c a IH]; cbn; [reflexivity|]. now rewrite IH, andb_assoc.
Qed.

Lemma all_chars_weaken (p q : ascii -> bool) (s : string) :
  (forall c, p c = true -> q c = true) ->
  Py.all_chars p s = true -> Py.all_chars q s = true.
Proof.
  intros Hpq. induction s as [|c s IH]; cbn; [trivial|]. intros H.
  apply andb_true_iff in H. destruct H as [Hc Hs].
  now rewrite (Hpq _ Hc), (IH Hs).
Qed.

Lemma span_append p (a : string) c (t : string) :
  Py.all_chars p a = true -> p c = false ->
  Py.span p (a ++ String c t) = (a, String c t).
Proof.
  intros Ha Hc. induction a as [|x a IH]; cbn.
  - now rewrite Hc.
  - cbn in Ha. apply andb_true_iff in Ha. destruct Ha as [Hx Ha].
    now rewrite Hx, (IH Ha).
Qed.

Lemma strip_prefix_append (p s r : string) :
  Py.strip_prefix p s = Some r -> s = p ++ r.
Proof.
  revert s. induction p as [|a p IH]; intros s; cbn.
  - intros H. now injection H as ->.
  - destruct s as [|b s]; [discriminate|].
    destruct (Ascii.eqb a b) eqn:E; [|discriminate].
    apply Ascii.eqb_eq in E. subst b. intros H. now rewrite (IH _ H).
Qed.

Lemma strip_prefix_of_append (p r : string) :
  Py.strip_prefix p (p ++ r) = Some r.
Proof.
  induction p as [|a p IH]; cbn; [reflexivity|].
  now rewrite Ascii.eqb_refl.
Qed.

Lemma span_split p (s a b : string) :
  Py.span p s = (a, b) -> s = a ++ b /\ Py.all_chars p a = true.
Proof.
  revert a b. induction s as [|c s IH]; intros a b; cbn.
  - intros H. injection H as <- <-. now split.
  - destruct (p c) eqn:Hc.
    + destruct (Py.span p s) as [a' b']. intros H. injection H as <- <-.
      destruct (IH _ _ eq_refl) as [-> Ha]. cbn. now rewrite Hc, Ha.
    + intros H. injection H as <- <-. now split.
Qed.

Lemma span_whole p (a : string) :
  Py.all_chars p a = true -> Py.span p a = (a, EmptyString).
Proof.
  induction a as [|c a IH]; cbn; [reflexivity|]. intros H.
  apply andb_true_iff in H. destruct H as [Hc Ha]. now rewrite Hc, (IH Ha).
Qed.

(** ** Integer literals *)


Lemma digit_is_not_underscore c :
  Py.is_ascii_digit c = true -> Py.is_underscore c = false.
Proof.
  unfold Py.is_ascii_digit, Py.is_underscore, Py.between. intros H.
  bool_to_prop. apply N.eqb_neq. lia.
Qed.


Lemma scan_digits_of_digits s :
  Py.all_chars Py.is_ascii_digit s = true ->
  forall acc digits,
    Py.scan_digits s acc digits false
    = Some ((acc * 10 ^ Z.of_nat (String.length s) + decimal_value s)%Z,
            (digits + String.length s)%nat, EmptyString).
Proof.
  induction s as [|c r IH]; intros Hall acc digits.
  - simpl. do 3 f_equal; [lia|lia].
  - simpl in Hall. apply andb_true_iff in Hall. destruct Hall as [Hc Hr].
    cbn [Py.scan_digits]. rewrite Hc, (IH Hr).
    cbn [String.length decimal_value].
    rewrite Nat2Z.inj_succ, Z.pow_succ_r by lia.
    do 3 f_equal; [lia|lia].
Qed.







(** [int()] raises nothing but [ValueError]. *)
Lemma int_of_str_raises max_str_digits s e :
  Py.int_of_str max_str_digits s = inl e -> e = Py.ValueError.
Proof.
  unfold Py.int_of_str, Py.int_of_digits.
  destruct (Py.split_sign (Py.lstrip s)) as [negative s2].
  destruct s2 as [|c r]; [congruence|].
  destruct (Py.is_underscore c); [congruence|].
  destruct (Py.scan_digits (String c r) 0 0 false) as [[[acc digits] rest]|];
    [|congruence].
  destruct (Py.exceeds_limit max_str_digits digits); [congruence|].
  destruct (digits =? 0)%nat; [congruence|].
  destruct (Py.is_empty (Py.lstrip rest)); congruence.
Qed.

(** ** The language of [COMMAND_TOPIC_RE] *)

(** The topics the handler accepts are the texts
    [bluetti/command/<type>-<serial>/<field>], with a type of word
    characters, a serial number of digits and a field of lower-case
    letters and underscores, none of them empty; one newline may follow
    the field. *)
Lemma COMMAND_TOPIC_RE_match_language (topic m1 m2 m3 : string) :
  COMMAND_TOPIC_RE_match topic = Some (m1, m2, m3) <->
  (Py.all_chars is_word m1 = true /\ m1 <> EmptyString)
  /\ (Py.all_chars is_decimal m2 = true /\ m2 <> EmptyString)
  /\ (Py.all_chars is_lower_or_underscore m3 = true /\ m3 <> EmptyString)
  /\ (topic = "bluetti/command/" ++ m1 ++ "-" ++ m2 ++ "/" ++ m3
      \/ topic = "bluetti/command/" ++ m1 ++ "-" ++ m2 ++ "/" ++ m3
                 ++ newline).
Proof.
  unfold COMMAND_TOPIC_RE_match. split.
  - destruct (Py.strip_prefix "bluetti/command/" topic) as [r0|] eqn:H0;
      [|discriminate].
    apply strip_prefix_append in H0. subst topic.
    destruct (Py.span is_word r0) as [a1 r1] eqn:H1.
    apply span_split in H1. destruct H1 as [-> Hw].
    destruct a1 as [|c1 a1]; [discriminate|]. cbn [Py.is_empty].
    destruct (Py.strip_prefix "-" r1) as [r2|] eqn:H2; [|discriminate].
    apply strip_prefix_append in H2. subst r1.
    destruct (Py.span is_decimal r2) as [a2 r3] eqn:H3.
    apply span_split in H3. destruct H3 as [-> Hd].
    destruct a2 as [|c2 a2]; [discriminate|]. cbn [Py.is_empty].
    destruct (Py.strip_prefix "/" r3) as [r4|] eqn:H4; [|discriminate].
    apply strip_prefix_append in H4. subst r3.
    destruct (Py.span is_lower_or_underscore r4) as [a3 r5] eqn:H5.
    apply span_split in H5. destruct H5 as [-> Hl].
    destruct a3 as [|c3 a3]; [discriminate|]. cbn [Py.is_empty].
    destruct (at_end r5) eqn:He; [|discriminate].
    intros H. injection H as <- <- <-.
    repeat split; try assumption; try discriminate.
    unfold at_end in He. apply orb_true_iff in He. destruct He as [He|He].
    + left. destruct r5; [|discriminate]. now rewrite append_nil_r.
    + right. apply String.eqb_eq in He. now subst r5.
  - intros ((Hw & Hn1) & (Hd & Hn2) & (Hl & Hn3) & Htopic).
    assert (E : exists tail, at_end tail = true
                             /\ topic = "bluetti/command/" ++ m1 ++ "-" ++ m2
                                        ++ "/" ++ m3 ++ tail
                             /\ Py.span is_lower_or_underscore (m3 ++ tail)
                                = (m3, tail)).
    { destruct Htopic as [->| ->].
      - exists EmptyString. rewrite !append_nil_r. repeat split.
        now apply span_whole.
      - exists newline. repeat split. now apply span_append. }
    destruct E as (tail & Hend & -> & Hspan).
    rewrite strip_prefix_of_append.
    change ("-" ++ m2 ++ "/" ++ m3 ++ tail)
      with (String "-" (m2 ++ "/" ++ m3 ++ tail)).
    rewrite (span_append is_word m1 "-" _ Hw eq_refl).
    destruct m1 as [|c1 m1]; [congruence|]. cbn [Py.is_empty].
    change (Py.strip_prefix "-" (String "-" (m2 ++ "/" ++ m3 ++ tail)))
      with (Some (m2 ++ "/" ++ m3 ++ tail)).
    cbv beta iota.
    change ("/" ++ m3 ++ tail) with (String "/" (m3 ++ tail)).
    rewrite (span_append is_decimal m2 "/" _ Hd eq_refl).
    destruct m2 as [|c2 m2]; [congruence|]. cbn [Py.is_empty].
    change (Py.strip_prefix "/" (String "/" (m3 ++ tail)))
      with (Some (m3 ++ tail)).
    cbv beta iota. rewrite Hspan. destruct m3 as [|c3 m3]; [congruence|]. cbn [Py.is_empty].
    now rewrite Hend.
Qed.

(** ** The command handler *)

Section CommandFacts.

Variable DeviceCommand : Type.
Variable max_str_digits : nat.

Implicit Types (self : MonitorService DeviceCommand)
         (mqtt_message : MQTTMessage.t)
         (device : BluettiDevice.t DeviceCommand)
         (field : MessageFieldConfig.t).

(** A command that names a registered device and a field the device has a
    setter for, found in the field table, reaches the branch on the kind
    of the field. *)
Lemma handle_command_on_routed device_fields self mqtt_message m1 m2 m3
      device field :
  COMMAND_TOPIC_RE_match (MQTTMessage.topic mqtt_message) = Some (m1, m2, m3) ->
  find_device (devices self) m1 m2 = Some device ->
  BluettiDevice.has_field_setter device m3 = true ->
  dict_get m3 device_fields = Some field ->
  handle_command_on max_str_digits device_fields self mqtt_message
  = match decode_command max_str_digits device m3 field
            (MQTTMessage.payload mqtt_message) with
    | inl e => raise DeviceCommand e
    | inr cmd => put {| CommandMessage.device := device;
                        CommandMessage.command := cmd |}
    end.
Proof.
  intros Hm Hd Hs Hf. unfold handle_command_on.
  rewrite Hm, Hd, Hs, Hf. reflexivity.
Qed.

Lemma decode_command_numeric device name field payload :
  MessageFieldConfig.type field = Member NUMERIC ->
  decode_command max_str_digits device name field payload
  = match Py.decode_ascii payload with
    | inl e => inl e
    | inr text =>
        match Py.int_of_str max_str_digits text with
        | inl e => inl e
        | inr value =>
            inr (BluettiDevice.build_setter_command device name (Py.VInt value))
        end
    end.
Proof. intros H. unfold decode_command. rewrite H. reflexivity. Qed.

Lemma decode_command_boolean device name field payload :
  MessageFieldConfig.type field = Member BOOL
  \/ MessageFieldConfig.type field = Member BUTTON ->
  decode_command max_str_digits device name field payload
  = inr (BluettiDevice.build_setter_command device name
           (Py.VBool (String.eqb payload "ON"))).
Proof. intros [H|H]; unfold decode_command; rewrite H; reflexivity. Qed.

Lemma decode_command_member_no_assertion device name field payload t msg :
  MessageFieldConfig.type field = Member t ->
  decode_command max_str_digits device name field payload
  <> inl (Py.AssertionError msg).
Proof.
  intros H. unfold decode_command. rewrite H.
  destruct t; cbn [type_attr_eq MessageFieldType_eqb orb];
    unfold Py.decode_ascii;
    try destruct (Py.all_chars _ payload); try discriminate.
  destruct (Py.int_of_str max_str_digits payload) eqn:Hi; [|discriminate].
  apply int_of_str_raises in Hi. subst. discriminate.
Qed.

Lemma digits_are_ascii s :
  Py.all_chars Py.is_ascii_digit s = true ->
  Py.all_chars (fun c => (Py.code c <? 128)%N) s = true.
Proof.
  induction s as [|c r IH]; [trivial|]. cbn [Py.all_chars]. intros H.
  apply andb_true_iff in H. destruct H as [Hc Hr]. rewrite (IH Hr), andb_true_r.
  unfold Py.is_ascii_digit, Py.between in Hc. bool_to_prop.
  apply N.ltb_lt. lia.
Qed.

End CommandFacts.

(** C5.  A topic that [COMMAND_TOPIC_RE], the grammar
    [bluetti/command/<type>-<serial>/<field>] of the service, does not
    match is answered with the warning "unknown command topic" and
    nothing else: the request is logged and dropped, no exception escapes
    and nothing is put on the bus. *)
Theorem malformed_topic_is_logged_and_dropped :
  forall (DeviceCommand : Type) (max_str_digits : nat)
         (self : MonitorService DeviceCommand) (mqtt_message : MQTTMessage.t),
    COMMAND_TOPIC_RE_match (MQTTMessage.topic mqtt_message) = None ->
    _handle_command max_str_digits self mqtt_message
    = {| log := ["unknown command topic: " ++ MQTTMessage.topic mqtt_message];
         bus_put := [];
         raised := None |}
    /\ logged_and_dropped (_handle_command max_str_digits self mqtt_message).
Proof.
  intros DeviceCommand max_str_digits self mqtt_message Hm.
  assert (E : _handle_command max_str_digits self mqtt_message
              = warn_and_return DeviceCommand
                  ("unknown command topic: " ++ MQTTMessage.topic mqtt_message)).
  { unfold _handle_command, handle_command_on. rewrite Hm. reflexivity. }
  split; [exact E|]. rewrite E. unfold logged_and_dropped, warn_and_return.
  cbn. repeat split; discriminate.
Qed.

(** The topic that lacks its field segment is dropped with a warning. *)
Lemma malformed_topic_witness :
  _handle_command 4300 Samples.registered (Samples.command "" "ON")
  = {| log := ["unknown command topic: bluetti/command/AC200-100/"];
       bus_put := [];
       raised := None |}.
Proof.
  apply (malformed_topic_is_logged_and_dropped _ 4300 Samples.registered
           (Samples.command "" "ON")).
  reflexivity.
Defined.

(** C7.  For a command on a field of kind [BOOL] or [BUTTON], the payload
    [ON], byte for byte, is decoded to [True] and every other payload to
    [False]; the decoded value goes to the device's
    [build_setter_command] and the command it builds is put on the bus. *)
Theorem boolean_and_button_payload_decoding :
  forall (DeviceCommand : Type) (max_str_digits : nat)
         (self : MonitorService DeviceCommand) (mqtt_message : MQTTMessage.t)
         (m1 m2 m3 : string) (device : BluettiDevice.t DeviceCommand)
         (field : MessageFieldConfig.t),
    COMMAND_TOPIC_RE_match (MQTTMessage.topic mqtt_message)
    = Some (m1, m2, m3) ->
    find_device (devices self) m1 m2 = Some device ->
    BluettiDevice.has_field_setter device m3 = true ->
    dict_get m3 NORMAL_DEVICE_FIELDS = Some field ->
    MessageFieldConfig.type field = Member BOOL
    \/ MessageFieldConfig.type field = Member BUTTON ->
    let setter_call (value : bool) :=
      put {| CommandMessage.device := device;
             CommandMessage.command :=
               BluettiDevice.build_setter_command device m3 (Py.VBool value) |}
    in
    (MQTTMessage.payload mqtt_message = "ON" ->
     _handle_command max_str_digits self mqtt_message = setter_call true)
    /\ (MQTTMessage.payload mqtt_message <> "ON" ->
        _handle_command max_str_digits self mqtt_message = setter_call false).
Proof.
  intros DeviceCommand max_str_digits self mqtt_message m1 m2 m3 device field
         Hm Hd Hs Hf Hk setter_call.
  unfold _handle_command.
  rewrite (handle_command_on_routed _ _ _ _ _ _ _ _ _ _ Hm Hd Hs Hf).
  rewrite (decode_command_boolean _ _ _ _ _ _ Hk).
  split; intros Hp.
  - rewrite Hp. reflexivity.
  - apply String.eqb_neq in Hp. rewrite Hp. reflexivity.
Qed.

(** [bluetti/command/AC200-100/ac_output_on] with payload [ON] sets the
    field to [True], with payload [OFF] to [False]. *)
Lemma boolean_payload_witness :
  _handle_command 4300 Samples.registered (Samples.command "ac_output_on" "ON")
  = put {| CommandMessage.device := Samples.ac200 1;
           CommandMessage.command := ("ac_output_on", Py.VBool true) |}
  /\ _handle_command 4300 Samples.registered
       (Samples.command "ac_output_on" "OFF")
     = put {| CommandMessage.device := Samples.ac200 1;
              CommandMessage.command := ("ac_output_on", Py.VBool false) |}.
Proof.
  split.
  - apply (boolean_and_button_payload_decoding _ 4300 Samples.registered
             (Samples.command "ac_output_on" "ON") "AC200" "100" "ac_output_on"
             (Samples.ac200 1) (field_config BOOL true false));
      try reflexivity.
    left. reflexivity.
  - apply (boolean_and_button_payload_decoding _ 4300 Samples.registered
             (Samples.command "ac_output_on" "OFF") "AC200" "100"
             "ac_output_on" (Samples.ac200 1) (field_config BOOL true false));
      try reflexivity.
    + left. reflexivity.
    + discriminate.
Defined.




(** C8.  A field whose [type] is none of the four members of
    [MessageFieldType] makes the handler raise [AssertionError]: nothing
    is logged and nothing is put on the bus, the failure escapes.  For a
    field whose [type] is one of the four members, the handler never
    raises [AssertionError]. *)
Theorem unknown_field_kind_is_a_hard_failure :
  forall (DeviceCommand : Type) (max_str_digits : nat)
         (device_fields : list (string * MessageFieldConfig.t))
         (self : MonitorService DeviceCommand) (mqtt_message : MQTTMessage.t)
         (m1 m2 m3 : string) (device : BluettiDevice.t DeviceCommand)
         (field : MessageFieldConfig.t),
    COMMAND_TOPIC_RE_match (MQTTMessage.topic mqtt_message)
    = Some (m1, m2, m3) ->
    find_device (devices self) m1 m2 = Some device ->
    BluettiDevice.has_field_setter device m3 = true ->
    dict_get m3 device_fields = Some field ->
    let result :=
      handle_command_on max_str_digits device_fields self mqtt_message in
    (forall text,
        MessageFieldConfig.type field = Foreign text ->
        result = {| log := []; bus_put := [];
                    raised := Some (Py.AssertionError
                                      ("unexpected enum type: " ++ text)) |}
        /\ ~ logged_and_dropped result)
    /\ (forall t msg,
           MessageFieldConfig.type field = Member t ->
           raised result <> Some (Py.AssertionError msg)).
Proof.
  intros DeviceCommand max_str_digits device_fields self mqtt_message
         m1 m2 m3 device field Hm Hd Hs Hf result.
  unfold result.
  rewrite (handle_command_on_routed _ _ _ _ _ _ _ _ _ _ Hm Hd Hs Hf).
  split.
  - intros text Hk. unfold decode_command. rewrite Hk. cbn.
    split; [reflexivity|].
    intros [Hlog _]. apply Hlog. reflexivity.
  - intros t msg Hk.
    pose proof (decode_command_member_no_assertion DeviceCommand
                  max_str_digits device m3 field
                  (MQTTMessage.payload mqtt_message) t msg Hk) as Hno.
    destruct (decode_command max_str_digits device m3 field
                (MQTTMessage.payload mqtt_message)) as [e|cmd]; cbn.
    + intros E. apply Hno. congruence.
    + discriminate.
Qed.

(** A field table with an entry of a foreign kind: the command on that
    entry raises, the command on the [BUTTON] entry next to it does not. *)
Lemma unknown_field_kind_witness :
  handle_command_on 4300 Samples.lab_fields Samples.lab
    (Samples.lab_command "mystery" "ON")
  = {| log := []; bus_put := [];
       raised := Some (Py.AssertionError "unexpected enum type: 7") |}
  /\ raised (handle_command_on 4300 Samples.lab_fields Samples.lab
               (Samples.lab_command "power_off" "ON"))
     <> Some (Py.AssertionError "unexpected enum type: 7").
Proof.
  split.
  - apply (unknown_field_kind_is_a_hard_failure _ 4300 Samples.lab_fields
             Samples.lab (Samples.lab_command "mystery" "ON") "LAB" "1"
             "mystery" Samples.lab_device
             {| MessageFieldConfig.type := Foreign "7";
                MessageFieldConfig.setter := true;
                MessageFieldConfig.advanced := false;
                MessageFieldConfig.id_override := None |}
             eq_refl eq_refl eq_refl eq_refl).
    reflexivity.
  - apply (unknown_field_kind_is_a_hard_failure _ 4300 Samples.lab_fields
             Samples.lab (Samples.lab_command "power_off" "ON") "LAB" "1"
             "power_off" Samples.lab_device (field_config BUTTON true false)
             eq_refl eq_refl eq_refl eq_refl) with (t := BUTTON).
    reflexivity.
Defined.

(** X7.  Every entry of [NORMAL_DEVICE_FIELDS] has one of the four kinds, so
    the service as it runs never reaches the assertion. *)
Lemma handle_command_never_asserts :
  forall (DeviceCommand : Type) (max_str_digits : nat)
         (self : MonitorService DeviceCommand) (mqtt_message : MQTTMessage.t)
         (msg : string),
    raised (_handle_command max_str_digits self mqtt_message)
    <> Some (Py.AssertionError msg).
Proof.
  intros DeviceCommand max_str_digits self mqtt_message msg.
  unfold _handle_command, handle_command_on.
  destruct (COMMAND_TOPIC_RE_match (MQTTMessage.topic mqtt_message))
    as [[[m1 m2] m3]|]; [|discriminate].
  destruct (find_device (devices self) m1 m2) as [device|]; [|discriminate].
  destruct (negb (BluettiDevice.has_field_setter device m3)); [discriminate|].
  destruct (dict_get m3 NORMAL_DEVICE_FIELDS) as [field|] eqn:Hf;
    [|discriminate].
  assert (Hk : exists t, MessageFieldConfig.type field = Member t).
  { revert Hf. unfold NORMAL_DEVICE_FIELDS.
    repeat (cbn [dict_get];
            match goal with
            | |- context [String.eqb m3 ?k] => destruct (String.eqb m3 k)
            end;
            [intros E; injection E as <-; eexists; reflexivity|]).
    discriminate. }
  destruct Hk as [t Hk].
  pose proof (decode_command_member_no_assertion DeviceCommand max_str_digits
                device m3 field (MQTTMessage.payload mqtt_message) t msg Hk)
    as Hno.
  destruct (decode_command max_str_digits device m3 field
              (MQTTMessage.payload mqtt_message)) as [e|cmd]; cbn.
  - intros E. apply Hno. congruence.
  - discriminate.
Qed.

(** ** The device list *)


Lemma device_in_after_init {DeviceCommand : Type}
      (device : BluettiDevice.t DeviceCommand) l :
  device_in device (l ++ [device])%list = true.
Proof.
  unfold device_in. rewrite existsb_app. cbn [existsb].
  now rewrite Nat.eqb_refl, !orb_true_r.
Qed.




(** ** Strings built by the persistence loop *)

(** [(a + ", ")[:-2]] is [a]. *)
Lemma slice_after_separator (a : string) : Py.slice_to_neg 2 (a ++ ", ") = a.
Proof.
  unfold Py.slice_to_neg. rewrite length_append. cbn [String.length].
  replace (String.length a + 2 - 2)%nat with (String.length a) by lia.
  apply take_append.
Qed.

Lemma value_order_join (names : list string) :
  names <> [] -> value_order names = Py.join ", " names ++ ", ".
Proof.
  induction names as [|n r IH]; [congruence|]. intros _.
  destruct r as [|n' r'].
  - cbn. reflexivity.
  - change (value_order (n :: n' :: r'))
      with (n ++ ", " ++ value_order (n' :: r')).
    change (Py.join ", " (n :: n' :: r'))
      with (n ++ ", " ++ Py.join ", " (n' :: r')).
    rewrite IH by discriminate. now rewrite !append_assoc.
Qed.

(** [valueOrder[:-2]] is the names joined by [", "]. *)
Lemma slice_value_order (names : list string) :
  Py.slice_to_neg 2 (value_order names) = Py.join ", " names.
Proof.
  destruct names as [|n r]; [reflexivity|].
  rewrite value_order_join by discriminate. apply slice_after_separator.
Qed.

Lemma str_mul_join (n : nat) :
  Py.str_mul "%s, " (S n) = Py.join ", " (repeat "%s" (S n)) ++ ", ".
Proof.
  induction n as [|n IH]; [reflexivity|].
  change (Py.str_mul "%s, " (S (S n))) with ("%s, " ++ Py.str_mul "%s, " (S n)).
  rewrite IH. reflexivity.
Qed.

(** [("%s, " * n)[:-2]] is [n] placeholders joined by [", "]. *)
Lemma slice_placeholders (n : nat) :
  Py.slice_to_neg 2 (Py.str_mul "%s, " n) = Py.join ", " (repeat "%s" n).
Proof.
  destruct n as [|n]; [reflexivity|].
  rewrite str_mul_join. apply slice_after_separator.
Qed.

(** ** The inner loop over the items of an event *)

Lemma str_in_In (x : string) (l : list string) : str_in x l = true <-> In x l.
Proof.
  unfold str_in. rewrite existsb_exists. split.
  - intros [y [Hy E]]. apply String.eqb_eq in E. now subst.
  - intros H. exists x. split; [exact H|apply String.eqb_refl].
Qed.

(** The loop runs to its end exactly when every name of the event is a
    field of the table and every value can be converted; [valueOrder] and
    [values] then hold the names and the converted values in the order of
    the event. *)
Lemma row_loop_exhausted fields items :
  forall valueOrder values valueOrder' values',
    row_loop_run fields items valueOrder values = Exhausted valueOrder' values' ->
    (forall name, In name (map fst items) -> In name fields)
    /\ exists passed,
        Forall2 passed_as items passed
        /\ valueOrder' = valueOrder ++ value_order (map fst items)
        /\ values' = (values ++ passed)%list.
Proof.
  induction items as [|[name value] rest IH];
    intros valueOrder values valueOrder' values' H.
  - cbn in H. injection H as <- <-. split; [intros ? []|].
    exists []. repeat split; [constructor|now rewrite append_nil_r|now rewrite app_nil_r].
  - cbn [row_loop_run] in H.
    destruct (str_in name fields) eqn:Hin; [|discriminate]. cbn [negb] in H.
    destruct (convert_value name value) as [e|p] eqn:Hc; [discriminate|].
    apply IH in H. destruct H as [Hall (passed & HF & -> & ->)]. split.
    + intros n [<-|Hn]; [now apply str_in_In|now apply Hall].
    + exists (p :: passed). repeat split.
      * constructor; [exact Hc|exact HF].
      * cbn [map fst value_order]. now rewrite !append_assoc.
      * now rewrite <- app_assoc.
Qed.

Lemma row_loop_complete fields items :
  forall valueOrder values passed,
    (forall name, In name (map fst items) -> In name fields) ->
    Forall2 passed_as items passed ->
    row_loop_run fields items valueOrder values
    = Exhausted (valueOrder ++ value_order (map fst items))
        (values ++ passed)%list.
Proof.
  induction items as [|[name value] rest IH];
    intros valueOrder values passed Hall HF.
  - inversion HF. subst. cbn. now rewrite append_nil_r, app_nil_r.
  - inversion HF as [|? p ? passed' Hc HF']. subst. cbn [row_loop_run].
    assert (Hin : str_in name fields = true).
    { apply str_in_In. apply Hall. now left. }
    rewrite Hin. cbn [negb]. unfold passed_as in Hc. cbn [fst snd] in Hc.
    rewrite Hc. rewrite (IH _ _ passed').
    + cbn [map fst value_order]. now rewrite !append_assoc, <- app_assoc.
    + intros n Hn. apply Hall. now right.
    + exact HF'.
Qed.

(** A name of the event that is no field of the table keeps the loop from
    running to its end. *)
Lemma row_loop_foreign_name fields items name valueOrder values :
  In name (map fst items) -> ~ In name fields ->
  forall valueOrder' values',
    row_loop_run fields items valueOrder values <> Exhausted valueOrder' values'.
Proof.
  intros Hin Hout valueOrder' values' H.
  apply row_loop_exhausted in H. destruct H as [Hall _]. auto.
Qed.

(** An event whose values can all be converted never makes the loop
    fail. *)
Lemma row_loop_never_fails fields items :
  (forall item, In item items -> exists p, passed_as item p) ->
  forall valueOrder values e,
    row_loop_run fields items valueOrder values <> Failed e.
Proof.
  induction items as [|[name value] rest IH]; intros Hconv valueOrder values e.
  - discriminate.
  - cbn [row_loop_run]. destruct (str_in name fields); [|discriminate].
    cbn [negb]. destruct (Hconv (name, value)) as [p Hp]; [now left|].
    unfold passed_as in Hp. cbn [fst snd] in Hp. rewrite Hp.
    apply IH. intros item Hitem. apply Hconv. now right.
Qed.

(** ** The outer loop over the tables *)

Section TablesLoop.

Variable db_error : list db_op -> db_op -> option string.

(** Whatever the server answers, the connection gains a prefix of the
    planned operations, and all of them when no exception escapes. *)
Lemma tables_loop_trace tables device_name parsed :
  forall history c e,
    tables_loop db_error tables device_name parsed (Some history) = (c, e) ->
    exists ops rest,
      c = Some (history ++ ops)%list
      /\ planned_ops tables device_name parsed = (ops ++ rest)%list
      /\ (e = None -> rest = []).
Proof.
  induction tables as [|[key cfg] tables IH]; intros history c e H.
  - cbn in H. injection H as <- <-. exists [], [].
    now rewrite app_nil_r.
  - cbn [tables_loop] in H. unfold planned_ops. cbn [flat_map snd].
    fold (planned_ops tables device_name parsed). unfold table_ops.
    destruct (row_loop_run (DBTableConfig.fields cfg) parsed ""
                [Py.VStr device_name]) as [vo vals| |err].
    + unfold insert_and_commit in H.
      set (q := insert_query (DBTableConfig.table_name cfg) vo vals) in *.
      destruct (db_error history (Execute q vals)) as [cause|].
      { injection H as <- <-. eexists [], _. rewrite app_nil_r.
        repeat split. discriminate. }
      destruct (db_error (history ++ [Execute q vals]) Commit) as [cause|].
      { injection H as <- <-. exists [Execute q vals]. eexists.
        repeat split. discriminate. }
      apply IH in H. destruct H as (ops & rest & -> & Hplan & Hrest).
      exists (Execute q vals :: Commit :: ops), rest. repeat split.
      * now rewrite <- !app_assoc.
      * cbn [app]. now rewrite Hplan.
      * exact Hrest.
    + apply IH in H. exact H.
    + injection H as <- <-. exists []. eexists. rewrite app_nil_r.
      repeat split. discriminate.
Qed.

(** With a server that accepts everything and values that can all be
    converted, the loop ends without an exception. *)
Lemma tables_loop_completes tables device_name parsed :
  (forall history op, db_error history op = None) ->
  (forall item, In item parsed -> exists p, passed_as item p) ->
  forall history,
    snd (tables_loop db_error tables device_name parsed (Some history)) = None.
Proof.
  intros Hacc Hconv. induction tables as [|[key cfg] tables IH]; intros history.
  - reflexivity.
  - cbn [tables_loop].
    pose proof (row_loop_never_fails (DBTableConfig.fields cfg) parsed Hconv
                  "" [Py.VStr device_name]) as Hnf.
    destruct (row_loop_run (DBTableConfig.fields cfg) parsed ""
                [Py.VStr device_name]) as [vo vals| |err].
    + unfold insert_and_commit. rewrite !Hacc. apply IH.
    + apply IH.
    + exfalso. exact (Hnf err eq_refl).
Qed.

End TablesLoop.

(** The names of the four tables. *)
Lemma table_name_cases key tableConfig :
  In (key, tableConfig) DATABASE_TABLES ->
  In (DBTableConfig.table_name tableConfig)
     ["general_data"; "internal_data"; "settings_data"; "battery_pack_data"].
Proof.
  cbn. intros [E|[E|[E|[E|[]]]]]; injection E as _ <-; cbn; tauto.
Qed.

(** An insert built for one of the four tables is an insert into that
    table and into no other. *)
Lemma is_insert_into_query a b valueOrder values :
  In a ["general_data"; "internal_data"; "settings_data"; "battery_pack_data"] ->
  In b ["general_data"; "internal_data"; "settings_data"; "battery_pack_data"] ->
  is_insert_into a (Execute (insert_query b valueOrder values) values)
  = String.eqb a b.
Proof.
  cbn [In]. unfold is_insert_into, insert_query.
  intros [<-|[<-|[<-|[<-|[]]]]] [<-|[<-|[<-|[<-|[]]]]]; reflexivity.
Qed.

Lemma inserts_into_table_ops a device_name parsed tableConfig :
  In a ["general_data"; "internal_data"; "settings_data"; "battery_pack_data"] ->
  In (DBTableConfig.table_name tableConfig)
     ["general_data"; "internal_data"; "settings_data"; "battery_pack_data"] ->
  inserts_into a (table_ops device_name parsed tableConfig)
  = if String.eqb a (DBTableConfig.table_name tableConfig)
    then firstn 1 (table_ops device_name parsed tableConfig)
    else [].
Proof.
  intros Ha Hb. unfold table_ops.
  destruct (row_loop_run (DBTableConfig.fields tableConfig) parsed ""
              [Py.VStr device_name]) as [vo vals| |err].
  - unfold inserts_into. cbn [filter]. rewrite (is_insert_into_query _ _ _ _ Ha Hb).
    cbn [is_insert_into]. destruct (String.eqb a _); reflexivity.
  - now destruct (String.eqb a _).
  - now destruct (String.eqb a _).
Qed.

Lemma inserts_into_app a (x y : list db_op) :
  inserts_into a (x ++ y)%list = (inserts_into a x ++ inserts_into a y)%list.
Proof. apply filter_app. Qed.

(** Among the planned operations, the inserts into one of the four tables
    are the insert built for that table, if one is built. *)
Lemma inserts_into_planned_ops key tableConfig device_name parsed :
  In (key, tableConfig) DATABASE_TABLES ->
  inserts_into (DBTableConfig.table_name tableConfig)
    (planned_ops DATABASE_TABLES device_name parsed)
  = firstn 1 (table_ops device_name parsed tableConfig).
Proof.
  intros Hin. pose proof (table_name_cases _ _ Hin) as Ha.
  unfold planned_ops, DATABASE_TABLES. cbn [flat_map snd].
  rewrite !inserts_into_app.
  rewrite !inserts_into_table_ops by (cbn; tauto).
  cbn in Hin. destruct Hin as [E|[E|[E|[E|[]]]]]; injection E as _ <-;
    cbn [DBTableConfig.table_name String.eqb Ascii.eqb Bool.eqb];
    now rewrite ?app_nil_r.
Qed.

Lemma dict_get_In {A : Type} (k : string) (d : list (string * A)) (v : A) :
  dict_get k d = Some v -> In (k, v) d.
Proof.
  induction d as [|[k' v'] r IH]; cbn; [discriminate|].
  destruct (String.eqb k k') eqn:E.
  - intros H. injection H as <-. apply String.eqb_eq in E. subst. now left.
  - intros H. right. now apply IH.
Qed.

Lemma within_table_names tableConfig parsed :
  within_table tableConfig parsed = true <->
  (forall name, In name (map fst parsed) ->
                In name (DBTableConfig.fields tableConfig)).
Proof.
  unfold within_table. rewrite forallb_forall. split.
  - intros H name Hn. apply in_map_iff in Hn. destruct Hn as [item [<- Hi]].
    apply str_in_In. now apply H.
  - intros H item Hi. apply str_in_In. apply H. now apply in_map.
Qed.

Lemma convertible_passed parsed :
  forallb convertible parsed = true ->
  forall item, In item parsed -> exists p, passed_as item p.
Proof.
  rewrite forallb_forall. intros H item Hi. specialize (H item Hi).
  unfold convertible in H. unfold passed_as.
  destruct (convert_value (fst item) (snd item)) as [e|p]; [discriminate|].
  now exists p.
Qed.

Lemma row_loop_not_broken fields items :
  (forall name, In name (map fst items) -> In name fields) ->
  forall valueOrder values, row_loop_run fields items valueOrder values <> Broken.
Proof.
  induction items as [|[name value] rest IH]; intros Hall valueOrder values.
  - discriminate.
  - cbn [row_loop_run].
    assert (Hin : str_in name fields = true).
    { apply str_in_In. apply Hall. now left. }
    rewrite Hin. cbn [negb].
    destruct (convert_value name value); [discriminate|].
    apply IH. intros n Hn. apply Hall. now right.
Qed.

(** When no exception escapes the outer loop, the inner loop failed for no
    table. *)
Lemma tables_loop_no_failure db_error tables device_name parsed :
  forall conn c,
    tables_loop db_error tables device_name parsed conn = (c, None) ->
    forall key tableConfig e,
      In (key, tableConfig) tables ->
      row_loop_run (DBTableConfig.fields tableConfig) parsed ""
        [Py.VStr device_name] <> Failed e.
Proof.
  induction tables as [|[k cfg] tables IH]; intros conn c H key tableConfig e Hin.
  - destruct Hin.
  - cbn [tables_loop] in H. destruct Hin as [E|Hin].
    + injection E as -> ->.
      destruct (row_loop_run (DBTableConfig.fields tableConfig) parsed ""
                  [Py.VStr device_name]); discriminate.
    + destruct (row_loop_run (DBTableConfig.fields cfg) parsed ""
                  [Py.VStr device_name]) as [vo vals| |err];
        [|now apply (IH _ _ H key tableConfig e)|discriminate].
      destruct (insert_and_commit db_error conn _ vals) as [c' [e'|]];
        [discriminate|]. now apply (IH _ _ H key tableConfig e).
Qed.

(** The insert built for a table, when the inner loop runs to its end. *)
Lemma table_ops_within device_name parsed tableConfig passed :
  within_table tableConfig parsed = true ->
  Forall2 passed_as parsed passed ->
  table_ops device_name parsed tableConfig
  = [Execute
       ("INSERT INTO " ++ DBTableConfig.table_name tableConfig
        ++ " (device, " ++ Py.join ", " (map fst parsed) ++ ") VALUES ("
        ++ Py.join ", " (repeat "%s" (S (List.length parsed))) ++ ")")
       (Py.VStr device_name :: passed);
     Commit].
Proof.
  intros Hw HF. unfold table_ops.
  rewrite (row_loop_complete _ _ "" [Py.VStr device_name] passed);
    [|now apply within_table_names|exact HF].
  cbn [append app]. unfold insert_query.
  rewrite slice_value_order, slice_placeholders. cbn [List.length].
  now rewrite <- (Forall2_length HF).
Qed.

(** C1, as the code has it.  For an event that has at least one field and
    all of whose field names are fields of a table: when persisting the
    event ends without an exception, the connection has carried out
    exactly one insert into that table; its columns are [device], with the
    value [<type>-<serial>], followed by the fields of the event in the
    order of the event.  With a server that accepts every statement and
    values that can be converted, persisting the event does end without
    an exception. *)
Theorem event_within_a_table_yields_one_insert :
  forall (DeviceCommand : Type)
         (db_error : list db_op -> db_op -> option string)
         (self : MonitorService DeviceCommand)
         (msg : ParserMessage.t DeviceCommand)
         (key : string) (tableConfig : DBTableConfig.t)
         (history : list db_op),
    dict_get key DATABASE_TABLES = Some tableConfig ->
    conn self = Some history ->
    ParserMessage.parsed msg <> [] ->
    within_table tableConfig (ParserMessage.parsed msg) = true ->
    let device := ParserMessage.device msg in
    let names := map fst (ParserMessage.parsed msg) in
    let query :=
      "INSERT INTO " ++ DBTableConfig.table_name tableConfig
      ++ " (device, " ++ Py.join ", " names ++ ") VALUES ("
      ++ Py.join ", " (repeat "%s" (S (List.length names))) ++ ")" in
    (forall self',
        _handle_message db_error self msg = (self', None) ->
        exists ops passed,
          conn self' = Some (history ++ ops)%list
          /\ Forall2 passed_as (ParserMessage.parsed msg) passed
          /\ inserts_into (DBTableConfig.table_name tableConfig) ops
             = [Execute query
                  (Py.VStr (BluettiDevice.type device ++ "-"
                            ++ BluettiDevice.sn device) :: passed)])
    /\ ((forall h op, db_error h op = None) ->
        forallb convertible (ParserMessage.parsed msg) = true ->
        snd (_handle_message db_error self msg) = None).
Proof.
  intros DeviceCommand db_error self msg key tableConfig history
         Hkey Hconn Hne Hw device names query.
  apply dict_get_In in Hkey. split.
  - intros self' H. unfold _handle_message in H. rewrite Hconn in H.
    destruct (tables_loop db_error DATABASE_TABLES
                (device_name_of (ParserMessage.device msg))
                (ParserMessage.parsed msg) (Some history)) as [c e] eqn:Hloop.
    injection H as <- ->. cbn [conn].
    pose proof (tables_loop_no_failure _ _ _ _ _ _ Hloop key tableConfig) as Hnf.
    destruct (tables_loop_trace _ _ _ _ _ _ _ Hloop)
      as (ops & rest & -> & Hplan & Hrest).
    rewrite (Hrest eq_refl), app_nil_r in Hplan. subst ops.
    destruct (row_loop_run (DBTableConfig.fields tableConfig)
                (ParserMessage.parsed msg) ""
                [Py.VStr (device_name_of (ParserMessage.device msg))])
      as [vo vals| |err] eqn:Hrow.
    + apply row_loop_exhausted in Hrow. destruct Hrow as [_ (passed & HF & _ & _)].
      exists (planned_ops DATABASE_TABLES
                (device_name_of (ParserMessage.device msg))
                (ParserMessage.parsed msg)), passed.
      repeat split; [exact HF|].
      rewrite (inserts_into_planned_ops _ _ _ _ Hkey).
      rewrite (table_ops_within _ _ _ passed Hw HF).
      unfold query, names, device, device_name_of.
      now rewrite length_map.
    + exfalso. revert Hrow. apply row_loop_not_broken.
      now apply within_table_names.
    + exfalso. exact (Hnf err Hkey eq_refl).
  - intros Hacc Hconv. unfold _handle_message. rewrite Hconn.
    pose proof (tables_loop_completes db_error DATABASE_TABLES
                  (device_name_of (ParserMessage.device msg))
                  (ParserMessage.parsed msg) Hacc
                  (convertible_passed _ Hconv) history) as Hdone.
    destruct (tables_loop db_error DATABASE_TABLES _ _ (Some history)).
    exact Hdone.
Qed.

(** The event that carries the six fields of [battery_pack_data] gives
    one insert into that table. *)
Lemma one_insert_witness :
  exists ops passed,
    conn (fst (_handle_message Samples.accept_all Samples.fresh
                 Samples.battery_pack_event)) = Some ([] ++ ops)%list
    /\ Forall2 passed_as (ParserMessage.parsed Samples.battery_pack_event)
         passed
    /\ inserts_into "battery_pack_data" ops
       = [Execute
            ("INSERT INTO battery_pack_data (device, pack_num_max, "
             ++ "total_battery_voltage, pack_num, pack_voltage, "
             ++ "pack_battery_percent, cell_voltages) "
             ++ "VALUES (%s, %s, %s, %s, %s, %s, %s)")
            (Py.VStr "AC200-100" :: passed)].
Proof.
  destruct (event_within_a_table_yields_one_insert _ Samples.accept_all
              Samples.fresh Samples.battery_pack_event "battery_pack_data"
              (Samples.table "battery_pack_data") [] eq_refl eq_refl)
    as [Hone _].
  - discriminate.
  - reflexivity.
  - apply (Hone (fst (_handle_message Samples.accept_all Samples.fresh
                        Samples.battery_pack_event))).
    reflexivity.
Defined.

(** C1, as the specification has it, fails twice.  An event that carries
    every field of [general_data] and one field more gives no insert at
    all; an event that carries the fields of [battery_pack_data] in
    another order gives an insert whose columns follow the event, not
    the declaration. *)
Lemma superset_event_yields_no_insert :
  covers_table (Samples.table "general_data")
    (ParserMessage.parsed Samples.general_and_more_event) = true
  /\ _handle_message Samples.accept_all Samples.fresh
       Samples.general_and_more_event = (Samples.fresh, None)
  /\ covers_table (Samples.table "battery_pack_data")
       (ParserMessage.parsed Samples.battery_pack_reversed_event) = true
  /\ conn (fst (_handle_message Samples.accept_all Samples.fresh
                  Samples.battery_pack_reversed_event))
     = Some [Execute
               ("INSERT INTO battery_pack_data (device, cell_voltages, "
                ++ "pack_battery_percent, pack_voltage, pack_num, "
                ++ "total_battery_voltage, pack_num_max) "
                ++ "VALUES (%s, %s, %s, %s, %s, %s, %s)")
               [Py.VStr "AC200-100"; Py.VStr "['3.31', '3.32']";
                Py.VStr "87"; Py.VStr "53.0"; Py.VStr "1"; Py.VStr "53.1";
                Py.VStr "2"];
             Commit].
Proof. repeat split. Qed.

(** C2, as the code has it.  For an event that has a field name which is
    no field of a table, persisting the event carries out no insert into
    that table, whatever the server answers. *)
Theorem event_outside_a_table_yields_no_insert :
  forall (DeviceCommand : Type)
         (db_error : list db_op -> db_op -> option string)
         (self : MonitorService DeviceCommand)
         (msg : ParserMessage.t DeviceCommand)
         (key : string) (tableConfig : DBTableConfig.t)
         (history : list db_op),
    dict_get key DATABASE_TABLES = Some tableConfig ->
    conn self = Some history ->
    within_table tableConfig (ParserMessage.parsed msg) = false ->
    exists ops,
      conn (fst (_handle_message db_error self msg))
      = Some (history ++ ops)%list
      /\ inserts_into (DBTableConfig.table_name tableConfig) ops = [].
Proof.
  intros DeviceCommand db_error self msg key tableConfig history
         Hkey Hconn Hout.
  apply dict_get_In in Hkey.
  unfold _handle_message. rewrite Hconn.
  destruct (tables_loop db_error DATABASE_TABLES
              (device_name_of (ParserMessage.device msg))
              (ParserMessage.parsed msg) (Some history)) as [c e] eqn:Hloop.
  cbn [fst conn].
  destruct (tables_loop_trace _ _ _ _ _ _ _ Hloop)
    as (ops & rest & -> & Hplan & _).
  exists ops. split; [reflexivity|].
  pose proof (inserts_into_planned_ops _ _
                (device_name_of (ParserMessage.device msg))
                (ParserMessage.parsed msg) Hkey) as Hins.
  rewrite Hplan, inserts_into_app in Hins.
  assert (Hnone : table_ops (device_name_of (ParserMessage.device msg))
                    (ParserMessage.parsed msg) tableConfig = []).
  { unfold table_ops.
    destruct (row_loop_run (DBTableConfig.fields tableConfig)
                (ParserMessage.parsed msg) ""
                [Py.VStr (device_name_of (ParserMessage.device msg))])
      as [vo vals| |err] eqn:Hrow; try reflexivity.
    apply row_loop_exhausted in Hrow. destruct Hrow as [Hall _].
    apply within_table_names in Hall. congruence. }
  rewrite Hnone in Hins. cbn [firstn] in Hins.
  now apply app_eq_nil in Hins.
Qed.

(** The event with the single field [pack_num] gives no insert into
    [general_data]. *)
Lemma no_insert_witness :
  exists ops,
    conn (fst (_handle_message Samples.accept_all Samples.fresh
                 Samples.pack_num_event)) = Some ([] ++ ops)%list
    /\ inserts_into "general_data" ops = [].
Proof.
  apply (event_outside_a_table_yields_no_insert _ Samples.accept_all
           Samples.fresh Samples.pack_num_event "general_data"
           (Samples.table "general_data") []); reflexivity.
Defined.

(** C2, as the specification has it, fails on the event with the single
    field [pack_num]: eleven of the twelve fields of [settings_data] are
    missing, and a row with the one column is inserted all the same. *)
Lemma partial_row_is_written :
  covers_table (Samples.table "setting_data")
    (ParserMessage.parsed Samples.pack_num_event) = false
  /\ exists ops,
      conn (fst (_handle_message Samples.accept_all Samples.fresh
                   Samples.pack_num_event)) = Some ops
      /\ inserts_into "settings_data" ops
         = [Execute
              "INSERT INTO settings_data (device, pack_num) VALUES (%s, %s)"
              [Py.VStr "AC200-100"; Py.VStr "1"]].
Proof.
  split; [reflexivity|]. eexists. split; reflexivity.
Qed.

Lemma tables_loop_app db_error before rest device_name parsed :
  forall conn,
    tables_loop db_error (before ++ rest) device_name parsed conn
    = match tables_loop db_error before device_name parsed conn with
      | (c, None) => tables_loop db_error rest device_name parsed c
      | (c, Some e) => (c, Some e)
      end.
Proof.
  induction before as [|[k cfg] before IH]; intros conn; [reflexivity|].
  cbn [app tables_loop].
  destruct (row_loop_run (DBTableConfig.fields cfg) parsed ""
              [Py.VStr device_name]) as [vo vals| |err];
    [|apply IH|reflexivity].
  destruct (insert_and_commit db_error conn _ vals) as [c [e|]];
    [reflexivity|apply IH].
Qed.

(** What the tables in front of a table contribute holds no insert into
    that table or into a later one. *)
Lemma earlier_tables_leave_later_ones before entry after device_name parsed :
  DATABASE_TABLES = (before ++ entry :: after)%list ->
  forall key tableConfig,
    In (key, tableConfig) (entry :: after) ->
    inserts_into (DBTableConfig.table_name tableConfig)
      (planned_ops before device_name parsed) = [].
Proof.
  intros Hsplit key tableConfig Hin.
  assert (Hnames : forall k c, In (k, c) before ->
                     In (DBTableConfig.table_name c)
                        ["general_data"; "internal_data"; "settings_data";
                         "battery_pack_data"]).
  { intros k c Hk. apply (table_name_cases k). rewrite Hsplit.
    apply in_or_app. now left. }
  assert (Hname : In (DBTableConfig.table_name tableConfig)
                     ["general_data"; "internal_data"; "settings_data";
                      "battery_pack_data"]).
  { apply (table_name_cases key). rewrite Hsplit. apply in_or_app. now right. }
  unfold DATABASE_TABLES in Hsplit.
  destruct before as [|b1 [|b2 [|b3 [|b4 before]]]]; cbn [app] in Hsplit.
  - reflexivity.
  - injection Hsplit as <- <- <-. unfold planned_ops. cbn [flat_map snd].
    rewrite app_nil_r, inserts_into_table_ops by (cbn; tauto).
    cbn in Hin. destruct Hin as [E|[E|[E|[]]]]; injection E as _ <-; reflexivity.
  - injection Hsplit as <- <- <- <-. unfold planned_ops. cbn [flat_map snd].
    rewrite app_nil_r, inserts_into_app, !inserts_into_table_ops
      by (cbn; tauto).
    cbn in Hin. destruct Hin as [E|[E|[]]]; injection E as _ <-; reflexivity.
  - injection Hsplit as <- <- <- <- <-. unfold planned_ops.
    cbn [flat_map snd].
    rewrite app_nil_r, !inserts_into_app, !inserts_into_table_ops
      by (cbn; tauto).
    cbn in Hin. destruct Hin as [E|[]]; injection E as _ <-; reflexivity.
  - exfalso. injection Hsplit as _ _ _ _ Hnil.
    now apply app_cons_not_nil in Hnil.
Qed.

(** C3, as the code has it.  When the insert built for a table is refused
    by the server, [_handle_message] ends there with the [mariadb.Error]
    of the server, which carries the cause alone: the connection keeps
    what the earlier tables did, nothing is inserted into the refused
    table, and none of the tables after it is processed. *)
Theorem failed_insert_aborts_the_event :
  forall (DeviceCommand : Type)
         (db_error : list db_op -> db_op -> option string)
         (self : MonitorService DeviceCommand)
         (msg : ParserMessage.t DeviceCommand)
         (before after : list (string * DBTableConfig.t))
         (key : string) (tableConfig : DBTableConfig.t)
         (history ops : list db_op)
         (valueOrder : string) (values : list Py.value) (cause : string),
    DATABASE_TABLES = (before ++ (key, tableConfig) :: after)%list ->
    conn self = Some history ->
    let device_name := device_name_of (ParserMessage.device msg) in
    let parsed := ParserMessage.parsed msg in
    tables_loop db_error before device_name parsed (Some history)
    = (Some (history ++ ops)%list, None) ->
    row_loop_run (DBTableConfig.fields tableConfig) parsed ""
      [Py.VStr device_name] = Exhausted valueOrder values ->
    db_error (history ++ ops)%list
      (Execute (insert_query (DBTableConfig.table_name tableConfig)
                  valueOrder values) values) = Some cause ->
    _handle_message db_error self msg
    = ({| devices := devices self; conn := Some (history ++ ops)%list |},
       Some (Py.MariadbError cause))
    /\ forall key' tableConfig',
        In (key', tableConfig') ((key, tableConfig) :: after) ->
        inserts_into (DBTableConfig.table_name tableConfig') ops = [].
Proof.
  intros DeviceCommand db_error self msg before after key tableConfig
         history ops valueOrder values cause Hsplit Hconn device_name parsed
         Hbefore Hrow Herr.
  split.
  - unfold _handle_message. fold device_name. fold parsed.
    rewrite Hconn, Hsplit, tables_loop_app, Hbefore.
    cbn [tables_loop]. rewrite Hrow. unfold insert_and_commit.
    rewrite Herr. reflexivity.
  - intros key' tableConfig' Hin.
    destruct (tables_loop_trace _ _ _ _ _ _ _ Hbefore)
      as (ops' & rest & Hc & Hplan & Hrest).
    injection Hc as Hc. apply app_inv_head in Hc. subst ops'.
    rewrite (Hrest eq_refl), app_nil_r in Hplan. rewrite <- Hplan.
    exact (earlier_tables_leave_later_ones _ _ _ _ _ Hsplit _ _ Hin).
Qed.

(** The server refuses the insert into [settings_data] for the event with
    the single field [pack_num]: the error escapes and the connection has
    carried out nothing. *)
Lemma failed_insert_witness :
  _handle_message Samples.refuse_settings Samples.fresh Samples.pack_num_event
  = (Samples.fresh, Some (Py.MariadbError "Lock wait timeout exceeded")).
Proof.
  apply (failed_insert_aborts_the_event _ Samples.refuse_settings
           Samples.fresh Samples.pack_num_event
           [("general_data", Samples.table "general_data");
            ("internal_data", Samples.table "internal_data")]
           [("battery_pack_data", Samples.table "battery_pack_data")]
           "setting_data" (Samples.table "setting_data") [] []
           "pack_num, " [Py.VStr "AC200-100"; Py.VStr "1"]
           "Lock wait timeout exceeded");
    reflexivity.
Defined.

(** C3, as the specification has it, fails on that run: the event has a
    row for [battery_pack_data] as well and the server would accept it,
    yet after the refusal for [settings_data] that table is never
    reached; and what escapes is the server's error, which names no
    table. *)
Lemma failed_insert_stops_the_remaining_tables :
  table_ops "AC200-100" (ParserMessage.parsed Samples.pack_num_event)
    (Samples.table "battery_pack_data")
  = [Execute
       "INSERT INTO battery_pack_data (device, pack_num) VALUES (%s, %s)"
       [Py.VStr "AC200-100"; Py.VStr "1"];
     Commit]
  /\ Samples.refuse_settings []
       (Execute
          "INSERT INTO battery_pack_data (device, pack_num) VALUES (%s, %s)"
          [Py.VStr "AC200-100"; Py.VStr "1"]) = None
  /\ _handle_message Samples.refuse_settings Samples.fresh
       Samples.pack_num_event
     = ({| devices := []; conn := Some [] |},
        Some (Py.MariadbError "Lock wait timeout exceeded")).
Proof. repeat split. Qed.

(** ** The parameters of an insert *)

Lemma repr_list (l : list Py.value) :
  Py.repr (Py.VList l) = "[" ++ Py.join ", " (map Py.repr l) ++ "]".
Proof. reflexivity. Qed.

Lemma convert_value_serialized name value p :
  (String.eqb name "cell_voltages" = true ->
   exists elements, value = Py.VList elements) ->
  convert_value name value = inr p ->
  serialized_as name value p.
Proof.
  intros Htyped. unfold convert_value.
  destruct (String.eqb name "cell_voltages") eqn:Hname.
  - apply String.eqb_eq in Hname. subst name.
    destruct (Htyped eq_refl) as [elements ->]. cbn [Py.iterate Py.is_not_bool].
    intros H.
    replace p
      with (Py.VStr ("[" ++ Py.join ", "
                              (map (fun v => Py.repr_str (Py.str v)) elements)
                     ++ "]")); [constructor|].
    injection H as <-.
    transitivity
      (Py.VStr (Py.repr (Py.VList (map (fun v => Py.VStr (Py.str v))
                                     elements)))); [|reflexivity].
    rewrite repr_list, map_map. reflexivity.
  - apply String.eqb_neq in Hname. intros H. injection H as <-.
    destruct value; cbn [Py.is_not_bool];
      try (apply other_as_its_text; [exact Hname|intros b'; discriminate]).
    now apply boolean_as_it_is.
Qed.

(** A boolean has one parameter only, the boolean itself, and a value
    that is no boolean and no cell voltage has one only, its text. *)
Lemma serialized_as_determined name value p :
  serialized_as name value p ->
  (forall b, value = Py.VBool b -> p = Py.VBool b)
  /\ (name <> "cell_voltages" -> (forall b, value <> Py.VBool b) ->
      p = Py.VStr (Py.str value)).
Proof.
  intros H. destruct H as [elements|name b Hname|name value Hname Hvalue].
  - split; [discriminate|]. intros Hn. now contradiction Hn.
  - split; [intros b' E; exact E|]. intros _ Hb. now contradiction (Hb b).
  - split; [|reflexivity]. intros b E. now contradiction (Hvalue b).
Qed.

(** C9.  In a row built for an insert, behind the device name, every
    field of the event has its parameter, in the order of the event: the
    cell voltages are passed as the text of the list of the texts of their
    elements, a boolean is passed as it is, and any other value is passed
    as its text. *)
Theorem insert_parameters_are_serialized :
  forall (fields : list string) (parsed : list (string * Py.value))
         (device_name valueOrder : string) (values : list Py.value),
    cell_voltages_is_array parsed = true ->
    row_loop_run fields parsed "" [Py.VStr device_name]
    = Exhausted valueOrder values ->
    exists passed,
      values = Py.VStr device_name :: passed
      /\ Forall2 (fun item p => serialized_as (fst item) (snd item) p)
           parsed passed.
Proof.
  intros fields parsed device_name valueOrder values Htyped Hrow.
  apply row_loop_exhausted in Hrow.
  destruct Hrow as [_ (passed & HF & _ & ->)]. exists passed.
  split; [reflexivity|].
  unfold cell_voltages_is_array in Htyped.
  induction HF as [|item p items passed Hp HF IH]; [constructor|].
  cbn [forallb] in Htyped. apply andb_true_iff in Htyped.
  destruct Htyped as [Hitem Hitems].
  constructor; [|exact (IH Hitems)].
  apply convert_value_serialized; [|exact Hp].
  intros Hname. rewrite Hname in Hitem.
  destruct (snd item); try discriminate. eauto.
Qed.

(** The row for the battery pack: the two cell voltages travel as one
    text, the other values as their texts.  The row for the settings: the
    six booleans travel as booleans, the other values as their texts. *)
Lemma insert_parameters_witness :
  (exists passed,
      [Py.VStr "AC200-100"; Py.VStr "2"; Py.VStr "53.1"; Py.VStr "1";
       Py.VStr "53.0"; Py.VStr "87"; Py.VStr "['3.31', '3.32']"]
      = Py.VStr "AC200-100" :: passed
      /\ Forall2 (fun item p => serialized_as (fst item) (snd item) p)
           (ParserMessage.parsed Samples.battery_pack_event) passed)
  /\ (exists passed,
         [Py.VStr "AC200-100"; Py.VStr "UpsMode.CUSTOMIZED"; Py.VBool false;
          Py.VStr "MachineAddress.SLAVE"; Py.VStr "1"; Py.VBool true;
          Py.VBool false; Py.VBool true; Py.VBool false; Py.VStr "20";
          Py.VStr "90"; Py.VBool true; Py.VStr "AutoSleepMode.FIVE_MINUTES"]
         = Py.VStr "AC200-100" :: passed
         /\ Forall2 (fun item p => serialized_as (fst item) (snd item) p)
              (ParserMessage.parsed Runs.settings_event) passed).
Proof.
  split.
  - apply (insert_parameters_are_serialized
             (DBTableConfig.fields (Samples.table "battery_pack_data"))
             (ParserMessage.parsed Samples.battery_pack_event) "AC200-100"
             ("pack_num_max, total_battery_voltage, pack_num, pack_voltage, "
              ++ "pack_battery_percent, cell_voltages, ")).
    + reflexivity.
    + reflexivity.
  - apply (insert_parameters_are_serialized
             (DBTableConfig.fields (Samples.table "setting_data"))
             (ParserMessage.parsed Runs.settings_event) "AC200-100"
             ("ups_mode, split_phase_on, split_phase_machine_mode, pack_num, "
              ++ "ac_output_on, dc_output_on, grid_charge_on, "
              ++ "time_control_on, battery_range_start, battery_range_end, "
              ++ "bluetooth_connected, auto_sleep_mode, ")).
    + reflexivity.
    + reflexivity.
Defined.

(** ** The shape of the queries *)

Lemma is_plain_not_char n c :
  n <> 44%N -> n <> 32%N -> n <> 95%N -> (n < 97 \/ 122 < n)%N ->
  is_plain c = true -> negb (is_char n c) = true.
Proof.
  intros H1 H2 H3 H4. unfold is_plain, is_lower_or_underscore, is_char,
    Py.is_underscore, Py.between.
  intros H. apply negb_true_iff. apply N.eqb_neq. intros E. subst n.
  repeat (apply orb_true_iff in H; destruct H as [H|H]);
    bool_to_prop; lia.
Qed.

Lemma join_is_plain (names : list string) :
  forallb is_identifier names = true ->
  Py.all_chars is_plain (Py.join ", " names) = true.
Proof.
  induction names as [|n r IH]; [reflexivity|]. cbn [forallb]. intros H.
  apply andb_true_iff in H. destruct H as [Hn Hr].
  unfold is_identifier in Hn. apply andb_true_iff in Hn. destruct Hn as [Hn _].
  assert (Hplain : Py.all_chars is_plain n = true).
  { revert Hn. apply all_chars_weaken. intros c Hc. unfold is_plain.
    now rewrite Hc. }
  destruct r as [|n' r']; [exact Hplain|].
  change (Py.join ", " (n :: n' :: r'))
    with (n ++ ", " ++ Py.join ", " (n' :: r')).
  rewrite !all_chars_append, Hplain, (IH Hr). reflexivity.
Qed.

Lemma count_placeholders_skip (a x : string) :
  Py.all_chars (fun c => negb (is_char 37 c)) a = true ->
  count_placeholders (a ++ x) = count_placeholders x.
Proof.
  induction a as [|c a IH]; [reflexivity|]. cbn [Py.all_chars]. intros H.
  apply andb_true_iff in H. destruct H as [Hc Ha].
  apply negb_true_iff in Hc. specialize (IH Ha).
  change (String c a ++ x) with (String c (a ++ x)).
  cbn [count_placeholders]. rewrite Hc. cbn [andb].
  destruct (a ++ x) as [|d r] eqn:E; [|exact IH].
  destruct a; [|discriminate]. cbn in E. now subst.
Qed.

Lemma count_placeholders_list (n : nat) :
  count_placeholders (Py.join ", " (repeat "%s" (S n)) ++ ")") = S n.
Proof.
  induction n as [|n IH]; [reflexivity|].
  change (Py.join ", " (repeat "%s" (S (S n))))
    with ("%s" ++ ", " ++ Py.join ", " (repeat "%s" (S n))).
  rewrite !append_assoc.
  change ("%s" ++ ", " ++ Py.join ", " (repeat "%s" (S n)) ++ ")")
    with (String "%" (String "s"
            (", " ++ (Py.join ", " (repeat "%s" (S n)) ++ ")")))).
  cbn [count_placeholders is_char Py.code N_of_ascii N.eqb andb].
  change (count_placeholders
            (String "%" (String "s"
               (", " ++ (Py.join ", " (repeat "%s" (S n)) ++ ")")))))
    with (S (count_placeholders
               (", " ++ (Py.join ", " (repeat "%s" (S n)) ++ ")")))).
  now rewrite count_placeholders_skip, IH.
Qed.

Lemma split_before_separator (s t : string) :
  Py.all_chars (fun c => negb (is_char 44 c)) s = true ->
  s <> EmptyString ->
  split_comma_space (s ++ ", " ++ t) = s :: split_comma_space t.
Proof.
  induction s as [|c s IH]; [congruence|]. cbn [Py.all_chars]. intros H _.
  apply andb_true_iff in H. destruct H as [Hc Hs].
  apply negb_true_iff in Hc.
  change (String c s ++ ", " ++ t) with (String c (s ++ ", " ++ t)).
  destruct s as [|c' s'].
  - change ("" ++ ", " ++ t) with (String "," (String " " t)).
    cbn [split_comma_space]. rewrite Hc. cbn [andb].
    change (is_char 44 "," && is_char 32 " ") with true. reflexivity.
  - change (String c' s' ++ ", " ++ t) with (String c' (s' ++ ", " ++ t))
      in *.
    cbn [split_comma_space]. rewrite Hc. cbn [andb].
    change (match s' ++ ", " ++ t with
            | EmptyString => [String c' EmptyString]
            | String d r' =>
                if is_char 44 c' && is_char 32 d
                then EmptyString :: split_comma_space r'
                else cons_first c' (split_comma_space (s' ++ ", " ++ t))
            end)
      with (split_comma_space (String c' (s' ++ ", " ++ t))).
    rewrite IH by (trivial || discriminate). reflexivity.
Qed.

Lemma split_single (s : string) :
  Py.all_chars (fun c => negb (is_char 44 c)) s = true ->
  s <> EmptyString ->
  split_comma_space s = [s].
Proof.
  induction s as [|c s IH]; [congruence|]. cbn [Py.all_chars]. intros H _.
  apply andb_true_iff in H. destruct H as [Hc Hs].
  apply negb_true_iff in Hc.
  destruct s as [|c' s']; [reflexivity|].
  cbn [split_comma_space]. rewrite Hc. cbn [andb].
  change (match s' with
          | EmptyString => [String c' EmptyString]
          | String d r' =>
              if is_char 44 c' && is_char 32 d
              then EmptyString :: split_comma_space r'
              else cons_first c' (split_comma_space s')
          end)
    with (split_comma_space (String c' s')).
  rewrite IH by (trivial || discriminate). reflexivity.
Qed.

Lemma identifier_char_not n c :
  n <> 95%N -> (n < 97 \/ 122 < n)%N ->
  is_lower_or_underscore c = true -> negb (is_char n c) = true.
Proof.
  intros H1 H2. unfold is_lower_or_underscore, is_char, Py.is_underscore,
    Py.between.
  intros H. apply negb_true_iff. apply N.eqb_neq. intros E. subst n.
  apply orb_true_iff in H. destruct H as [H|H]; bool_to_prop; lia.
Qed.

Lemma identifier_has_no_comma (name : string) :
  is_identifier name = true ->
  Py.all_chars (fun c => negb (is_char 44 c)) name = true
  /\ name <> EmptyString.
Proof.
  unfold is_identifier. intros H. apply andb_true_iff in H.
  destruct H as [Hc Hne]. split.
  - revert Hc. apply all_chars_weaken. intros c Hc.
    apply (identifier_char_not 44 c); [lia|lia|exact Hc].
  - intros ->. discriminate.
Qed.

Lemma split_join (names : list string) :
  forallb is_identifier names = true -> names <> [] ->
  split_comma_space (Py.join ", " names) = names.
Proof.
  induction names as [|n r IH]; [congruence|]. cbn [forallb]. intros H _.
  apply andb_true_iff in H. destruct H as [Hn Hr].
  destruct (identifier_has_no_comma _ Hn) as [Hcomma Hne].
  destruct r as [|n' r'].
  - now apply split_single.
  - change (Py.join ", " (n :: n' :: r'))
      with (n ++ ", " ++ Py.join ", " (n' :: r')).
    rewrite (split_before_separator _ _ Hcomma Hne), IH;
      [reflexivity|exact Hr|discriminate].
Qed.

Lemma identifiers_are_not_empty (names : list string) :
  forallb is_identifier names = true ->
  filter (fun name => negb (Py.is_empty name)) names = names.
Proof.
  induction names as [|n r IH]; [reflexivity|]. cbn [forallb filter].
  intros H. apply andb_true_iff in H. destruct H as [Hn Hr].
  destruct (identifier_has_no_comma _ Hn) as [_ Hne].
  destruct n; [congruence|]. cbn [Py.is_empty negb]. now rewrite (IH Hr).
Qed.

Lemma table_fields_are_identifiers key tableConfig :
  In (key, tableConfig) DATABASE_TABLES ->
  forallb is_identifier (DBTableConfig.fields tableConfig) = true.
Proof.
  cbn. intros [E|[E|[E|[E|[]]]]]; injection E as _ <-; reflexivity.
Qed.

Lemma names_within_identifiers (fields names : list string) :
  forallb is_identifier fields = true ->
  (forall name, In name names -> In name fields) ->
  forallb is_identifier names = true.
Proof.
  intros Hf Hsub. apply forallb_forall. intros name Hn.
  rewrite forallb_forall in Hf. apply Hf. now apply Hsub.
Qed.

(** The column list of an insert into one of the four tables. *)
Lemma column_list_of_insert table_name (names : list string) (rest : string) :
  In table_name
     ["general_data"; "internal_data"; "settings_data"; "battery_pack_data"] ->
  forallb is_identifier names = true ->
  column_list ("INSERT INTO " ++ table_name ++ " (device, "
               ++ Py.join ", " names ++ ")" ++ rest)
  = "device, " ++ Py.join ", " names.
Proof.
  intros Ht Hn.
  assert (E : column_list ("INSERT INTO " ++ table_name ++ " (device, "
                           ++ Py.join ", " names ++ ")" ++ rest)
              = fst (Py.span (fun c => negb (is_char 41 c))
                       (("device, " ++ Py.join ", " names)
                        ++ String ")" rest))).
  { rewrite append_assoc. cbn [In] in Ht.
    destruct Ht as [<-|[<-|[<-|[<-|[]]]]]; reflexivity. }
  rewrite E, span_append; [reflexivity| |reflexivity].
  rewrite all_chars_append. apply andb_true_iff. split; [reflexivity|].
  apply join_is_plain in Hn. revert Hn. apply all_chars_weaken.
  intros c. apply is_plain_not_char; lia.
Qed.

Lemma count_placeholders_of_insert table_name (names : list string) (n : nat) :
  In table_name
     ["general_data"; "internal_data"; "settings_data"; "battery_pack_data"] ->
  forallb is_identifier names = true ->
  count_placeholders
    ("INSERT INTO " ++ table_name ++ " (device, " ++ Py.join ", " names
     ++ ") VALUES (" ++ Py.join ", " (repeat "%s" (S n)) ++ ")")
  = S n.
Proof.
  intros Ht Hn.
  rewrite (count_placeholders_skip "INSERT INTO ") by reflexivity.
  rewrite (count_placeholders_skip table_name)
    by (cbn [In] in Ht; destruct Ht as [<-|[<-|[<-|[<-|[]]]]]; reflexivity).
  rewrite (count_placeholders_skip " (device, ") by reflexivity.
  rewrite (count_placeholders_skip (Py.join ", " names)).
  - rewrite (count_placeholders_skip ") VALUES (") by reflexivity.
    apply count_placeholders_list.
  - apply join_is_plain in Hn. revert Hn. apply all_chars_weaken.
    intros c. apply is_plain_not_char; lia.
Qed.

Lemma column_names_of_insert table_name (names : list string) (rest : string) :
  In table_name
     ["general_data"; "internal_data"; "settings_data"; "battery_pack_data"] ->
  forallb is_identifier names = true ->
  column_names ("INSERT INTO " ++ table_name ++ " (device, "
                ++ Py.join ", " names ++ ")" ++ rest)
  = "device" :: names.
Proof.
  intros Ht Hn. unfold column_names.
  rewrite (column_list_of_insert _ _ _ Ht Hn).
  change ("device, " ++ Py.join ", " names)
    with ("device" ++ ", " ++ Py.join ", " names).
  rewrite split_before_separator by (reflexivity || discriminate).
  destruct names as [|n r]; [reflexivity|].
  rewrite split_join by (trivial || discriminate).
  change (filter (fun name => negb (Py.is_empty name)) ("device" :: n :: r))
    with ("device" :: filter (fun name => negb (Py.is_empty name)) (n :: r)).
  now rewrite identifiers_are_not_empty.
Qed.

(** C10.  Every insert built for one of the four tables is consistent in
    shape: the number of [%s] in the query, the number of column names
    the query lists ([device] and the fields of the event) and the number
    of parameters passed with it are the same, one more than the number
    of fields of the event. *)
Theorem insert_statement_is_shape_consistent :
  forall (key : string) (tableConfig : DBTableConfig.t)
         (parsed : list (string * Py.value))
         (device_name valueOrder : string) (values : list Py.value),
    dict_get key DATABASE_TABLES = Some tableConfig ->
    row_loop_run (DBTableConfig.fields tableConfig) parsed ""
      [Py.VStr device_name] = Exhausted valueOrder values ->
    let query :=
      insert_query (DBTableConfig.table_name tableConfig) valueOrder values in
    count_placeholders query = List.length values
    /\ List.length (column_names query) = List.length values
    /\ column_names query = "device" :: map fst parsed
    /\ List.length values = S (List.length parsed).
Proof.
  intros key tableConfig parsed device_name valueOrder values Hkey Hrow query.
  apply dict_get_In in Hkey.
  pose proof (table_name_cases _ _ Hkey) as Ht.
  apply row_loop_exhausted in Hrow.
  destruct Hrow as [Hall (passed & HF & Hvo & Hvals)].
  assert (Hn : forallb is_identifier (map fst parsed) = true).
  { apply (names_within_identifiers (DBTableConfig.fields tableConfig));
      [exact (table_fields_are_identifiers _ _ Hkey)|exact Hall]. }
  assert (Hlen : List.length values = S (List.length parsed)).
  { rewrite Hvals. cbn. now rewrite (Forall2_length HF). }
  assert (Hq : query
               = "INSERT INTO " ++ DBTableConfig.table_name tableConfig
                 ++ " (device, " ++ Py.join ", " (map fst parsed)
                 ++ ") VALUES ("
                 ++ Py.join ", " (repeat "%s" (S (List.length parsed)))
                 ++ ")").
  { unfold query, insert_query. rewrite Hvo. cbn [append].
    now rewrite slice_value_order, slice_placeholders, Hlen. }
  rewrite Hq, Hlen.
  rewrite (count_placeholders_of_insert _ _ _ Ht Hn).
  change (") VALUES (" ++ Py.join ", " (repeat "%s" (S (List.length parsed)))
          ++ ")")
    with (")" ++ (" VALUES ("
                  ++ Py.join ", " (repeat "%s" (S (List.length parsed)))
                  ++ ")")).
  rewrite (column_names_of_insert _ _ _ Ht Hn).
  cbn [List.length]. now rewrite length_map.
Qed.

(** The insert for the event with the single field [pack_num] has two
    placeholders, two columns and two parameters. *)
Lemma shape_witness :
  count_placeholders
    "INSERT INTO settings_data (device, pack_num) VALUES (%s, %s)" = 2%nat
  /\ List.length
       (column_names
          "INSERT INTO settings_data (device, pack_num) VALUES (%s, %s)")
     = 2%nat.
Proof.
  destruct (insert_statement_is_shape_consistent "setting_data"
              (Samples.table "setting_data")
              (ParserMessage.parsed Samples.pack_num_event) "AC200-100"
              "pack_num, " [Py.VStr "AC200-100"; Py.VStr "1"]
              eq_refl eq_refl) as (H1 & H2 & _).
  split; [exact H1|exact H2].
Defined.

(** * Further properties of the command handler *)

(** X1.  A topic built from a type of word characters, a serial number of
    digits and a field of lower-case letters and underscores is parsed
    back into these three parts, and so is the same topic followed by one
    newline; no other topic is parsed into them. *)
Theorem command_topic_round_trip :
  forall type serial field : string,
    Py.all_chars is_word type = true -> type <> EmptyString ->
    Py.all_chars is_decimal serial = true -> serial <> EmptyString ->
    Py.all_chars is_lower_or_underscore field = true ->
    field <> EmptyString ->
    COMMAND_TOPIC_RE_match (command_topic type serial field)
    = Some (type, serial, field)
    /\ COMMAND_TOPIC_RE_match (command_topic type serial field ++ newline)
       = Some (type, serial, field)
    /\ forall topic,
        COMMAND_TOPIC_RE_match topic = Some (type, serial, field) ->
        topic = command_topic type serial field
        \/ topic = command_topic type serial field ++ newline.
Proof.
  intros type serial field Ht Hnt Hs Hns Hf Hnf.
  assert (E : command_topic type serial field ++ newline
              = "bluetti/command/" ++ type ++ "-" ++ serial ++ "/" ++ field
                ++ newline).
  { unfold command_topic. now rewrite !append_assoc. }
  repeat split.
  - apply COMMAND_TOPIC_RE_match_language. unfold command_topic. tauto.
  - rewrite E. apply COMMAND_TOPIC_RE_match_language. tauto.
  - intros topic H. apply COMMAND_TOPIC_RE_match_language in H.
    rewrite E. unfold command_topic. tauto.
Qed.

Lemma command_topic_witness :
  COMMAND_TOPIC_RE_match (command_topic "AC200" "100" "ac_output_on")
  = Some ("AC200", "100", "ac_output_on").
Proof.
  apply (command_topic_round_trip "AC200" "100" "ac_output_on");
    (reflexivity || discriminate).
Defined.

Lemma find_device_some {DeviceCommand : Type}
      (l : list (BluettiDevice.t DeviceCommand)) m1 m2 device :
  find_device l m1 m2 = Some device ->
  In device l /\ BluettiDevice.type device = m1
  /\ BluettiDevice.sn device = m2.
Proof.
  unfold find_device. intros H. apply find_some in H. destruct H as [Hin H].
  apply andb_true_iff in H. destruct H as [H1 H2].
  apply String.eqb_eq in H1. apply String.eqb_eq in H2. auto.
Qed.

(** X2.  Whatever the handler puts on the bus is a single setter command of a
    registered device that has a setter for the field, for a field of
    [NORMAL_DEVICE_FIELDS], and the topic names that device and that
    field; nothing is logged and nothing is raised besides. *)
Theorem published_command_is_legitimate :
  forall (DeviceCommand : Type) (max_str_digits : nat)
         (self : MonitorService DeviceCommand) (mqtt_message : MQTTMessage.t)
         (m : CommandMessage.t DeviceCommand),
    In m (bus_put (_handle_command max_str_digits self mqtt_message)) ->
    let device := CommandMessage.device m in
    _handle_command max_str_digits self mqtt_message = put m
    /\ In device (devices self)
    /\ exists field config value,
        BluettiDevice.has_field_setter device field = true
        /\ dict_get field NORMAL_DEVICE_FIELDS = Some config
        /\ CommandMessage.command m
           = BluettiDevice.build_setter_command device field value
        /\ (MQTTMessage.topic mqtt_message
            = command_topic (BluettiDevice.type device)
                (BluettiDevice.sn device) field
            \/ MQTTMessage.topic mqtt_message
               = command_topic (BluettiDevice.type device)
                   (BluettiDevice.sn device) field ++ newline).
Proof.
  intros DeviceCommand max_str_digits self mqtt_message m.
  unfold _handle_command, handle_command_on.
  destruct (COMMAND_TOPIC_RE_match (MQTTMessage.topic mqtt_message))
    as [[[m1 m2] m3]|] eqn:Hm; [|intros []].
  destruct (find_device (devices self) m1 m2) as [d|] eqn:Hd; [|intros []].
  destruct (BluettiDevice.has_field_setter d m3) eqn:Hs; [|intros []].
  cbn [negb].
  destruct (dict_get m3 NORMAL_DEVICE_FIELDS) as [field|] eqn:Hf; [|intros []].
  destruct (find_device_some _ _ _ _ Hd) as (Hin & Ht & Hn).
  pose proof (proj1 (COMMAND_TOPIC_RE_match_language _ _ _ _) Hm)
    as (_ & _ & _ & Htopic).
  assert (Hvalue : forall cmd,
             decode_command max_str_digits d m3 field
               (MQTTMessage.payload mqtt_message) = inr cmd ->
             exists value,
               cmd = BluettiDevice.build_setter_command d m3 value).
  { unfold decode_command. intros cmd.
    destruct (type_attr_eq (MessageFieldConfig.type field) ENUM).
    { destruct (Py.decode_ascii _); [discriminate|].
      intros E. injection E as <-. eauto. }
    destruct (type_attr_eq (MessageFieldConfig.type field) BOOL
              || type_attr_eq (MessageFieldConfig.type field) BUTTON).
    { intros E. injection E as <-. eauto. }
    destruct (type_attr_eq (MessageFieldConfig.type field) NUMERIC);
      [|discriminate].
    destruct (Py.decode_ascii _) as [e|text]; [discriminate|].
    destruct (Py.int_of_str max_str_digits text); [discriminate|].
    intros E. injection E as <-. eauto. }
  destruct (decode_command max_str_digits d m3 field
              (MQTTMessage.payload mqtt_message)) as [e|cmd]; [intros []|].
  destruct (Hvalue cmd eq_refl) as [value ->].
  cbn [put bus_put In]. intros [<-|[]]. cbn [CommandMessage.device].
  split; [reflexivity|]. split; [exact Hin|].
  exists m3, field, value. cbn [CommandMessage.command].
  repeat split; try assumption.
  subst m1 m2. unfold command_topic. rewrite !append_assoc. exact Htopic.
Qed.

Lemma published_command_witness :
  In (Samples.ac200 1) (devices Samples.registered)
  /\ _handle_command 4300 Samples.registered
       (Samples.command "ac_output_on" "ON")
     = put {| CommandMessage.device := Samples.ac200 1;
              CommandMessage.command := ("ac_output_on", Py.VBool true) |}.
Proof.
  destruct (published_command_is_legitimate _ 4300 Samples.registered
              (Samples.command "ac_output_on" "ON")
              {| CommandMessage.device := Samples.ac200 1;
                 CommandMessage.command := ("ac_output_on", Py.VBool true) |})
    as (H1 & H2 & _).
  - left. reflexivity.
  - split; [exact H2|exact H1].
Defined.

(** X3.  A request is logged and dropped exactly when it is not routed: when
    the topic does not match, when no registered device has the type and
    serial number of the topic, when the device has no setter for the
    field, or when the field is not in [NORMAL_DEVICE_FIELDS].  The
    payload plays no part in it. *)
Theorem command_is_dropped_iff_not_routed :
  forall (DeviceCommand : Type) (max_str_digits : nat)
         (self : MonitorService DeviceCommand) (mqtt_message : MQTTMessage.t),
    logged_and_dropped (_handle_command max_str_digits self mqtt_message)
    <-> ~ routed NORMAL_DEVICE_FIELDS self mqtt_message.
Proof.
  intros DeviceCommand max_str_digits self mqtt_message.
  unfold _handle_command. split.
  - intros [Hlog _] (m1 & m2 & m3 & device & field & Hm & Hd & Hs & Hf).
    rewrite (handle_command_on_routed _ _ _ _ _ _ _ _ _ _ Hm Hd Hs Hf)
      in Hlog.
    destruct (decode_command max_str_digits device m3 field
                (MQTTMessage.payload mqtt_message)); now apply Hlog.
  - intros Hnot. unfold handle_command_on.
    assert (Hwarn : forall text,
               logged_and_dropped (warn_and_return DeviceCommand text)).
    { intros text. unfold logged_and_dropped, warn_and_return. cbn.
      repeat split. discriminate. }
    destruct (COMMAND_TOPIC_RE_match (MQTTMessage.topic mqtt_message))
      as [[[m1 m2] m3]|] eqn:Hm; [|apply Hwarn].
    destruct (find_device (devices self) m1 m2) as [d|] eqn:Hd;
      [|apply Hwarn].
    destruct (BluettiDevice.has_field_setter d m3) eqn:Hs; [|apply Hwarn].
    cbn [negb].
    destruct (dict_get m3 NORMAL_DEVICE_FIELDS) as [field|] eqn:Hf;
      [|apply Hwarn].
    exfalso. apply Hnot. exists m1, m2, m3, d, field. auto.
Qed.

(** X4.  For a command on a field of kind [ENUM], a payload of ASCII bytes goes
    to the device's [build_setter_command] as the text it is, whatever it
    says; a payload with a byte outside ASCII makes the handler raise
    [UnicodeDecodeError]. *)
Theorem enum_payload_passes_through :
  forall (DeviceCommand : Type) (max_str_digits : nat)
         (self : MonitorService DeviceCommand) (mqtt_message : MQTTMessage.t)
         (m1 m2 m3 : string) (device : BluettiDevice.t DeviceCommand)
         (field : MessageFieldConfig.t),
    COMMAND_TOPIC_RE_match (MQTTMessage.topic mqtt_message)
    = Some (m1, m2, m3) ->
    find_device (devices self) m1 m2 = Some device ->
    BluettiDevice.has_field_setter device m3 = true ->
    dict_get m3 NORMAL_DEVICE_FIELDS = Some field ->
    MessageFieldConfig.type field = Member ENUM ->
    let payload := MQTTMessage.payload mqtt_message in
    let result := _handle_command max_str_digits self mqtt_message in
    (Py.all_chars (fun c => (Py.code c <? 128)%N) payload = true ->
     result = put {| CommandMessage.device := device;
                     CommandMessage.command :=
                       BluettiDevice.build_setter_command device m3
                         (Py.VStr payload) |})
    /\ (Py.all_chars (fun c => (Py.code c <? 128)%N) payload = false ->
        result = raise DeviceCommand Py.UnicodeDecodeError).
Proof.
  intros DeviceCommand max_str_digits self mqtt_message m1 m2 m3 device field
         Hm Hd Hs Hf Hk payload result.
  unfold result, _handle_command.
  rewrite (handle_command_on_routed _ _ _ _ _ _ _ _ _ _ Hm Hd Hs Hf).
  unfold decode_command. rewrite Hk. cbn [type_attr_eq MessageFieldType_eqb].
  unfold Py.decode_ascii. fold payload.
  split; intros Hp; rewrite Hp; reflexivity.
Qed.

Lemma enum_payload_witness :
  _handle_command 4300 Samples.registered
    (Samples.command "ups_mode" "NO_SUCH_MODE")
  = put {| CommandMessage.device := Samples.ac200 1;
           CommandMessage.command := ("ups_mode", Py.VStr "NO_SUCH_MODE") |}.
Proof.
  apply (enum_payload_passes_through _ 4300 Samples.registered
           (Samples.command "ups_mode" "NO_SUCH_MODE") "AC200" "100"
           "ups_mode" (Samples.ac200 1) (field_config ENUM true false));
    reflexivity.
Defined.

Lemma dict_get_same_kinds (a b : list (string * MessageFieldConfig.t)) :
  same_kinds a b ->
  forall k,
    match dict_get k a, dict_get k b with
    | Some x, Some y => MessageFieldConfig.type x = MessageFieldConfig.type y
    | None, None => True
    | _, _ => False
    end.
Proof.
  induction 1 as [|[ka x] [kb y] a b [Hk Ht] _ IH]; intros k; cbn [dict_get].
  - exact I.
  - cbn [fst snd] in Hk, Ht. subst kb.
    destruct (String.eqb k ka); [exact Ht|apply IH].
Qed.

Lemma decode_command_depends_on_type {DeviceCommand : Type} max_str_digits
      (device : BluettiDevice.t DeviceCommand) name x y payload :
  MessageFieldConfig.type x = MessageFieldConfig.type y ->
  decode_command max_str_digits device name x payload
  = decode_command max_str_digits device name y payload.
Proof. intros H. unfold decode_command. now rewrite H. Qed.

(** X5.  The handler reads nothing of the field table but the kind of each
    field: two tables with the same keys and kinds are handled alike.  The
    attributes [setter], [advanced] and [id_override] of a field never
    decide whether a command is sent. *)
Theorem handler_reads_only_the_kind :
  forall (DeviceCommand : Type) (max_str_digits : nat)
         (a b : list (string * MessageFieldConfig.t))
         (self : MonitorService DeviceCommand) (mqtt_message : MQTTMessage.t),
    same_kinds a b ->
    handle_command_on max_str_digits a self mqtt_message
    = handle_command_on max_str_digits b self mqtt_message.
Proof.
  intros DeviceCommand max_str_digits a b self mqtt_message Hsame.
  unfold handle_command_on.
  destruct (COMMAND_TOPIC_RE_match (MQTTMessage.topic mqtt_message))
    as [[[m1 m2] m3]|]; [|reflexivity].
  destruct (find_device (devices self) m1 m2) as [d|]; [|reflexivity].
  destruct (negb (BluettiDevice.has_field_setter d m3)); [reflexivity|].
  pose proof (dict_get_same_kinds a b Hsame m3) as Hget.
  destruct (dict_get m3 a) as [x|], (dict_get m3 b) as [y|];
    try contradiction; [|reflexivity].
  now rewrite (decode_command_depends_on_type max_str_digits d m3 x y _ Hget).
Qed.

(** With every field of [NORMAL_DEVICE_FIELDS] marked as not settable, the
    command that switches the AC output on is sent all the same. *)
Lemma handler_reads_only_the_kind_witness :
  handle_command_on 4300 Runs.flags_cleared Samples.registered
    (Samples.command "ac_output_on" "ON")
  = put {| CommandMessage.device := Samples.ac200 1;
           CommandMessage.command := ("ac_output_on", Py.VBool true) |}.
Proof.
  rewrite <- (handler_reads_only_the_kind _ 4300 NORMAL_DEVICE_FIELDS
                Runs.flags_cleared Samples.registered
                (Samples.command "ac_output_on" "ON")).
  - reflexivity.
  - unfold same_kinds, Runs.flags_cleared, NORMAL_DEVICE_FIELDS.
    cbn [map]. repeat (constructor; [split; reflexivity|]). constructor.
Defined.

Lemma find_device_app {DeviceCommand : Type}
      (before after : list (BluettiDevice.t DeviceCommand)) m1 m2 :
  find_device (before ++ after)%list m1 m2
  = match find_device before m1 m2 with
    | Some d => Some d
    | None => find_device after m1 m2
    end.
Proof.
  unfold find_device. induction before as [|d r IH]; cbn [app find].
  - reflexivity.
  - destruct (String.eqb (BluettiDevice.type d) m1
              && String.eqb (BluettiDevice.sn d) m2); [reflexivity|exact IH].
Qed.

(** X6.  A command goes to the first registered device with the type and
    serial number of its topic: the devices registered after it, those
    with the same type and serial number among them, change nothing in
    what the handler does. *)
Theorem command_goes_to_the_first_registered :
  forall (DeviceCommand : Type) (max_str_digits : nat)
         (self : MonitorService DeviceCommand) (mqtt_message : MQTTMessage.t)
         (m1 m2 m3 : string)
         (before after : list (BluettiDevice.t DeviceCommand))
         (device : BluettiDevice.t DeviceCommand),
    COMMAND_TOPIC_RE_match (MQTTMessage.topic mqtt_message)
    = Some (m1, m2, m3) ->
    devices self = (before ++ device :: after)%list ->
    find_device before m1 m2 = None ->
    BluettiDevice.type device = m1 ->
    BluettiDevice.sn device = m2 ->
    _handle_command max_str_digits self mqtt_message
    = _handle_command max_str_digits
        {| devices := [device]; conn := conn self |} mqtt_message.
Proof.
  intros DeviceCommand max_str_digits self mqtt_message m1 m2 m3 before after
         device Hm Hsplit Hbefore Ht Hn.
  unfold _handle_command, handle_command_on. rewrite Hm, Hsplit.
  cbn [devices]. rewrite find_device_app, Hbefore.
  unfold find_device. cbn [find]. rewrite Ht, Hn, !String.eqb_refl.
  reflexivity.
Qed.

(** Two device objects with the same type and serial number are
    registered: the command is built by the first one. *)
Lemma first_registered_witness :
  _handle_command 4300 Runs.twice (Samples.command "power_off" "ON")
  = put {| CommandMessage.device := Samples.ac200 1;
           CommandMessage.command := ("power_off", Py.VBool true) |}.
Proof.
  rewrite (command_goes_to_the_first_registered _ 4300 Runs.twice
             (Samples.command "power_off" "ON") "AC200" "100" "power_off"
             [] [Samples.ac200 2] (Samples.ac200 1));
    reflexivity.
Defined.

Lemma int_of_str_of_negative max_str_digits s :
  s <> EmptyString ->
  Py.all_chars Py.is_ascii_digit s = true ->
  Py.exceeds_limit max_str_digits (String.length s) = false ->
  Py.int_of_str max_str_digits (String "-" s) = inr (- decimal_value s)%Z.
Proof.
  intros Hne Hall Hlim. destruct s as [|c r]; [congruence|].
  pose proof Hall as Hall'. simpl in Hall'.
  apply andb_true_iff in Hall'. destruct Hall' as [Hc _].
  unfold Py.int_of_str.
  change (Py.lstrip (String "-" (String c r))) with (String "-" (String c r)).
  change (Py.split_sign (String "-" (String c r))) with (true, String c r).
  unfold Py.int_of_digits.
  rewrite (digit_is_not_underscore _ Hc).
  rewrite (scan_digits_of_digits _ Hall). cbn [Nat.add].
  rewrite Hlim. cbn [String.length Nat.eqb Py.lstrip Py.is_empty].
  reflexivity.
Qed.

(** X8.  A numeric payload is not checked against any range: a minus sign in
    front of decimal digits is read as the negative number and goes to the
    setter call. *)
Theorem negative_numeric_payload_is_sent :
  forall (DeviceCommand : Type) (max_str_digits : nat)
         (self : MonitorService DeviceCommand) (mqtt_message : MQTTMessage.t)
         (m1 m2 m3 digits : string) (device : BluettiDevice.t DeviceCommand)
         (field : MessageFieldConfig.t),
    COMMAND_TOPIC_RE_match (MQTTMessage.topic mqtt_message)
    = Some (m1, m2, m3) ->
    find_device (devices self) m1 m2 = Some device ->
    BluettiDevice.has_field_setter device m3 = true ->
    dict_get m3 NORMAL_DEVICE_FIELDS = Some field ->
    MessageFieldConfig.type field = Member NUMERIC ->
    MQTTMessage.payload mqtt_message = String "-" digits ->
    digits <> EmptyString ->
    Py.all_chars Py.is_ascii_digit digits = true ->
    Py.exceeds_limit max_str_digits (String.length digits) = false ->
    _handle_command max_str_digits self mqtt_message
    = put {| CommandMessage.device := device;
             CommandMessage.command :=
               BluettiDevice.build_setter_command device m3
                 (Py.VInt (- decimal_value digits)) |}.
Proof.
  intros DeviceCommand max_str_digits self mqtt_message m1 m2 m3 digits
         device field Hm Hd Hs Hf Hk Hp Hne Hdig Hlim.
  unfold _handle_command.
  rewrite (handle_command_on_routed _ _ _ _ _ _ _ _ _ _ Hm Hd Hs Hf).
  rewrite (decode_command_numeric _ _ _ _ _ _ Hk), Hp.
  unfold Py.decode_ascii. cbn [Py.all_chars].
  rewrite (digits_are_ascii _ Hdig).
  change ((Py.code "-" <? 128)%N && true) with true. cbv iota.
  now rewrite (int_of_str_of_negative _ _ Hne Hdig Hlim).
Qed.

Lemma negative_numeric_payload_witness :
  _handle_command 4300 Samples.registered
    (Samples.command "battery_range_start" "-250")
  = put {| CommandMessage.device := Samples.ac200 1;
           CommandMessage.command :=
             ("battery_range_start", Py.VInt (-250)) |}.
Proof.
  apply (negative_numeric_payload_is_sent _ 4300 Samples.registered
           (Samples.command "battery_range_start" "-250") "AC200" "100"
           "battery_range_start" "250" (Samples.ac200 1)
           (field_config NUMERIC true false));
    (reflexivity || discriminate).
Defined.

(** * Further properties of the device list *)

Lemma find_device_among {DeviceCommand : Type}
      (l : list (BluettiDevice.t DeviceCommand)) device :
  In device l ->
  exists found,
    find_device l (BluettiDevice.type device) (BluettiDevice.sn device)
    = Some found.
Proof.
  unfold find_device. induction l as [|d r IH]; intros Hin; [destruct Hin|].
  cbn [find].
  destruct (String.eqb (BluettiDevice.type d) (BluettiDevice.type device)
            && String.eqb (BluettiDevice.sn d) (BluettiDevice.sn device))
    eqn:E; [eauto|].
  destruct Hin as [->|Hin]; [|now apply IH].
  now rewrite !String.eqb_refl in E.
Qed.

Lemma device_in_itself {DeviceCommand : Type}
      (l : list (BluettiDevice.t DeviceCommand)) device :
  In device l -> device_in device l = true.
Proof.
  intros Hin. unfold device_in. apply existsb_exists. exists device.
  split; [exact Hin|]. now rewrite Nat.eqb_refl.
Qed.

(** X9.  Once a device has been registered, [_handle_command] finds a device
    of its type and serial number: the device itself, unless another one
    with that type and serial number was registered before.  Here the
    device object is either in the list already or unknown to it. *)
Theorem registered_device_is_found :
  forall (DeviceCommand : Type) (self : MonitorService DeviceCommand)
         (device : BluettiDevice.t DeviceCommand),
    In device (devices self) \/ device_in device (devices self) = false ->
    let type := BluettiDevice.type device in
    let sn := BluettiDevice.sn device in
    exists found,
      find_device (devices (fst (register_if_absent self device))) type sn
      = Some found
      /\ BluettiDevice.type found = type
      /\ BluettiDevice.sn found = sn
      /\ In found (devices (fst (register_if_absent self device)))
      /\ (find_device (devices self) type sn = None -> found = device).
Proof.
  intros DeviceCommand self device Hknown type sn.
  assert (Hin : In device (devices (fst (register_if_absent self device)))).
  { unfold register_if_absent. destruct Hknown as [Hin|Hout].
    - now rewrite (device_in_itself _ _ Hin).
    - rewrite Hout. cbn. apply in_or_app. right. now left. }
  destruct (find_device_among _ _ Hin) as [found Hfound].
  exists found. fold type sn in Hfound.
  destruct (find_device_some _ _ _ _ Hfound) as (Hf1 & Hf2 & Hf3).
  repeat split; try assumption.
  intros Hnone. revert Hfound. unfold register_if_absent.
  destruct (device_in device (devices self)); cbn [negb fst].
  - rewrite Hnone. discriminate.
  - cbn [_init_device devices]. rewrite find_device_app, Hnone.
    unfold find_device, type, sn. cbn [find]. rewrite !String.eqb_refl.
    cbn. congruence.
Qed.

Lemma registered_device_witness :
  find_device
    (devices (fst (register_if_absent Samples.fresh (Samples.ac200 1))))
    "AC200" "100" = Some (Samples.ac200 1).
Proof.
  destruct (registered_device_is_found _ Samples.fresh (Samples.ac200 1))
    as (found & Hfound & _ & _ & _ & Hsame).
  - right. reflexivity.
  - rewrite (Hsame eq_refl) in Hfound. exact Hfound.
Defined.

(** * Further properties of the persistence loop *)

Lemma row_loop_broken fields items :
  forall valueOrder values,
    row_loop_run fields items valueOrder values = Broken ->
    forallb (fun item => str_in (fst item) fields) items = false.
Proof.
  induction items as [|[name value] rest IH]; intros valueOrder values H.
  - discriminate.
  - cbn [row_loop_run] in H. cbn [forallb fst].
    destruct (str_in name fields); [|reflexivity]. cbn [negb andb] in *.
    destruct (convert_value name value); [discriminate|].
    exact (IH _ _ H).
Qed.

Lemma Forall2_map_of {A B : Type} (P : A -> B -> Prop) (f : A -> B)
      (l : list A) :
  (forall x, In x l -> P x (f x)) -> Forall2 P l (map f l).
Proof.
  induction l as [|x r IH]; intros H; cbn [map]; constructor.
  - apply H. now left.
  - apply IH. intros y Hy. apply H. now right.
Qed.

(** What a table contributes when no exception escapes: the insert and
    its commit when every name of the event is a field of the table,
    nothing otherwise. *)
Lemma table_ops_decided device_name parsed tableConfig :
  (forall e, row_loop_run (DBTableConfig.fields tableConfig) parsed ""
               [Py.VStr device_name] <> Failed e) ->
  if within_table tableConfig parsed
  then exists passed,
      Forall2 passed_as parsed passed
      /\ table_ops device_name parsed tableConfig
         = [Execute
              ("INSERT INTO " ++ DBTableConfig.table_name tableConfig
               ++ " (device, " ++ Py.join ", " (map fst parsed)
               ++ ") VALUES ("
               ++ Py.join ", " (repeat "%s" (S (List.length parsed))) ++ ")")
              (Py.VStr device_name :: passed);
            Commit]
  else table_ops device_name parsed tableConfig = [].
Proof.
  intros Hnf.
  destruct (row_loop_run (DBTableConfig.fields tableConfig) parsed ""
              [Py.VStr device_name]) as [vo vals| |err] eqn:Hrow.
  - pose proof Hrow as Hrow'. apply row_loop_exhausted in Hrow'.
    destruct Hrow' as [Hall (passed & HF & _ & _)].
    apply within_table_names in Hall. rewrite Hall.
    exists passed. split; [exact HF|]. now apply table_ops_within.
  - pose proof (row_loop_broken _ _ _ _ Hrow) as Hout.
    unfold within_table. rewrite Hout. unfold table_ops. now rewrite Hrow.
  - exfalso. exact (Hnf err eq_refl).
Qed.

(** X10.  When persisting an event ends without an exception, the devices are
    as before and the connection has carried out, table by table in the
    order of [DATABASE_TABLES], one insert followed at once by its commit
    for every table whose fields hold all the names of the event, and
    nothing for the other tables. *)
Theorem persisted_event_trace :
  forall (DeviceCommand : Type)
         (db_error : list db_op -> db_op -> option string)
         (self self' : MonitorService DeviceCommand)
         (msg : ParserMessage.t DeviceCommand) (history : list db_op),
    conn self = Some history ->
    _handle_message db_error self msg = (self', None) ->
    let device := ParserMessage.device msg in
    let parsed := ParserMessage.parsed msg in
    devices self' = devices self
    /\ exists rows,
        conn self' = Some (history ++ concat rows)%list
        /\ Forall2
             (fun entry row =>
                if within_table (snd entry) parsed
                then exists passed,
                    Forall2 passed_as parsed passed
                    /\ row
                       = [Execute
                            ("INSERT INTO "
                             ++ DBTableConfig.table_name (snd entry)
                             ++ " (device, " ++ Py.join ", " (map fst parsed)
                             ++ ") VALUES ("
                             ++ Py.join ", "
                                  (repeat "%s" (S (List.length parsed)))
                             ++ ")")
                            (Py.VStr (BluettiDevice.type device ++ "-"
                                      ++ BluettiDevice.sn device) :: passed);
                          Commit]
                else row = [])
             DATABASE_TABLES rows.
Proof.
  intros DeviceCommand db_error self self' msg history Hconn H device parsed.
  unfold _handle_message in H. rewrite Hconn in H.
  destruct (tables_loop db_error DATABASE_TABLES
              (device_name_of (ParserMessage.device msg))
              (ParserMessage.parsed msg) (Some history)) as [c e] eqn:Hloop.
  injection H as <- ->. cbn [devices conn]. split; [reflexivity|].
  destruct (tables_loop_trace _ _ _ _ _ _ _ Hloop)
    as (ops & rest & -> & Hplan & Hrest).
  rewrite (Hrest eq_refl), app_nil_r in Hplan. subst ops.
  exists (map (fun entry =>
                 table_ops (device_name_of (ParserMessage.device msg))
                   (ParserMessage.parsed msg) (snd entry)) DATABASE_TABLES).
  split.
  - unfold planned_ops. now rewrite flat_map_concat_map.
  - apply Forall2_map_of. intros [key cfg] Hin. cbn [snd].
    apply (table_ops_decided (device_name_of (ParserMessage.device msg))).
    intros err. exact (tables_loop_no_failure _ _ _ _ _ _ Hloop key cfg err Hin).
Qed.

(** The event with the single field [pack_num] ends in two inserts, each
    with its commit, in the order of the tables. *)
Lemma persisted_event_trace_witness :
  exists rows,
    conn (fst (_handle_message Samples.accept_all Samples.fresh
                 Samples.pack_num_event)) = Some ([] ++ concat rows)%list
    /\ List.length rows = 4%nat.
Proof.
  destruct (persisted_event_trace _ Samples.accept_all Samples.fresh
              (fst (_handle_message Samples.accept_all Samples.fresh
                      Samples.pack_num_event))
              Samples.pack_num_event [] eq_refl eq_refl)
    as (_ & rows & Hconn & Hrows).
  exists rows. split; [exact Hconn|].
  now rewrite <- (Forall2_length Hrows).
Defined.

Lemma pairs_then (n : nat) :
  forall a b,
    (List.length a <= n)%nat ->
    fully_committed a = true ->
    fully_committed (a ++ b) = fully_committed b
    /\ in_transactions (a ++ b) = in_transactions b.
Proof.
  induction n as [|n IH]; intros a b Hlen Ha.
  - destruct a; [now split|cbn in Hlen; lia].
  - destruct a as [|[q v|] [|[q' v'|] a']]; try discriminate; [now split|].
    cbn [fully_committed] in Ha. cbn [app fully_committed in_transactions].
    apply IH; [cbn in Hlen; lia|exact Ha].
Qed.

Lemma fully_committed_in_transactions (a : list db_op) :
  fully_committed a = true -> in_transactions a = true.
Proof.
  intros Ha. destruct (pairs_then (List.length a) a [] (le_n _) Ha) as [_ H].
  now rewrite app_nil_r in H.
Qed.

Lemma tables_loop_in_transactions db_error tables device_name parsed :
  forall history c e,
    tables_loop db_error tables device_name parsed (Some history) = (c, e) ->
    exists ops,
      c = Some (history ++ ops)%list
      /\ in_transactions ops = true
      /\ (e = None -> fully_committed ops = true).
Proof.
  induction tables as [|[key cfg] tables IH]; intros history c e H.
  - cbn in H. injection H as <- <-. exists []. now rewrite app_nil_r.
  - cbn [tables_loop] in H.
    destruct (row_loop_run (DBTableConfig.fields cfg) parsed ""
                [Py.VStr device_name]) as [vo vals| |err].
    + unfold insert_and_commit in H.
      set (q := insert_query (DBTableConfig.table_name cfg) vo vals) in *.
      destruct (db_error history (Execute q vals)) as [cause|].
      { injection H as <- <-. exists []. rewrite app_nil_r.
        repeat split; try discriminate. }
      destruct (db_error (history ++ [Execute q vals])%list Commit) as [cause|].
      { injection H as <- <-. exists [Execute q vals].
        repeat split; try discriminate. }
      apply IH in H. destruct H as (ops & -> & Htx & Hfull).
      exists (Execute q vals :: Commit :: ops). repeat split.
      * now rewrite <- !app_assoc.
      * exact Htx.
      * exact Hfull.
    + apply IH in H. exact H.
    + injection H as <- <-. exists []. rewrite app_nil_r.
      repeat split; try discriminate.
Qed.

Lemma handle_message_in_transactions {DeviceCommand : Type} db_error
      (self self' : MonitorService DeviceCommand) msg history e :
  conn self = Some history ->
  _handle_message db_error self msg = (self', e) ->
  devices self' = devices self
  /\ exists ops,
      conn self' = Some (history ++ ops)%list
      /\ in_transactions ops = true
      /\ (e = None -> fully_committed ops = true).
Proof.
  intros Hconn H. unfold _handle_message in H. rewrite Hconn in H.
  destruct (tables_loop db_error DATABASE_TABLES
              (device_name_of (ParserMessage.device msg))
              (ParserMessage.parsed msg) (Some history)) as [c e'] eqn:Hloop.
  injection H as <- <-. cbn [devices conn]. split; [reflexivity|].
  exact (tables_loop_in_transactions _ _ _ _ _ _ _ Hloop).
Qed.

Lemma register_keeps_conn {DeviceCommand : Type}
      (self : MonitorService DeviceCommand) device :
  conn (fst (register_if_absent self device)) = conn self.
Proof.
  unfold register_if_absent.
  now destruct (negb (device_in device (devices self))).
Qed.

(** X11.  Over the whole life of the message loop the connection only gains
    operations, and they come as inserts each followed at once by its
    commit: only the very last insert can lack its commit, and only when
    an exception ended the loop. *)
Theorem message_loop_commits_each_insert :
  forall (DeviceCommand : Type)
         (db_error : list db_op -> db_op -> option string)
         (queue : list (ParserMessage.t DeviceCommand))
         (self self' : MonitorService DeviceCommand)
         (history : list db_op) (e : option Py.exn),
    conn self = Some history ->
    _handle_messages db_error self queue = (self', e) ->
    exists ops,
      conn self' = Some (history ++ ops)%list
      /\ in_transactions ops = true
      /\ (e = None -> fully_committed ops = true).
Proof.
  intros DeviceCommand db_error queue.
  induction queue as [|msg rest IH]; intros self self' history e Hconn H.
  - cbn in H. injection H as <- <-. exists []. now rewrite app_nil_r.
  - cbn [_handle_messages] in H. unfold handle_messages_turn in H.
    destruct (_handle_message db_error
                (fst (register_if_absent self (ParserMessage.device msg)))
                msg) as [s1 e1] eqn:Hturn.
    assert (Hconn1 : conn (fst (register_if_absent self
                                  (ParserMessage.device msg)))
                     = Some history)
      by now rewrite register_keeps_conn.
    destruct (handle_message_in_transactions _ _ _ _ _ _ Hconn1 Hturn)
      as (_ & ops1 & Hc1 & Htx1 & Hfull1).
    destruct e1 as [err|].
    + injection H as <- <-. exists ops1. repeat split; try assumption.
      all: try discriminate.
    + specialize (Hfull1 eq_refl).
      destruct (IH _ _ _ _ Hc1 H) as (ops & -> & Htx & Hfull).
      exists (ops1 ++ ops)%list.
      destruct (pairs_then (List.length ops1) ops1 ops (le_n _) Hfull1)
        as [Hf Ht].
      repeat split.
      * now rewrite app_assoc.
      * now rewrite Ht.
      * intros He. rewrite Hf. now apply Hfull.
Qed.

(** A server that refuses every commit: the loop stops at the first
    insert, which stays without its commit. *)
Lemma message_loop_commits_witness :
  exists ops,
    conn (fst (_handle_messages Runs.refuse_commit Samples.fresh
                 [Samples.pack_num_event; Samples.battery_pack_event]))
    = Some ([] ++ ops)%list
    /\ in_transactions ops = true.
Proof.
  destruct (message_loop_commits_each_insert _ Runs.refuse_commit
              [Samples.pack_num_event; Samples.battery_pack_event]
              Samples.fresh
              (fst (_handle_messages Runs.refuse_commit Samples.fresh
                      [Samples.pack_num_event; Samples.battery_pack_event]))
              []
              (snd (_handle_messages Runs.refuse_commit Samples.fresh
                      [Samples.pack_num_event; Samples.battery_pack_event]))
              eq_refl eq_refl)
    as (ops & H1 & H2 & _).
  exists ops. split; [exact H1|exact H2].
Defined.

Lemma convert_value_fails name value e :
  convert_value name value = inl e ->
  name = "cell_voltages" /\ e = Py.TypeError.
Proof.
  unfold convert_value.
  destruct (String.eqb name "cell_voltages") eqn:Hn; [|discriminate].
  apply String.eqb_eq in Hn.
  destruct value; cbn [Py.iterate]; intros H; try discriminate;
    injection H as <-; auto.
Qed.

(** With values that can all be converted, the inner loop runs to its end
    when every name is a field of the table and breaks otherwise. *)
Lemma row_loop_convertible fields items valueOrder values :
  forallb convertible items = true ->
  if forallb (fun item => str_in (fst item) fields) items
  then exists valueOrder' values',
      row_loop_run fields items valueOrder values
      = Exhausted valueOrder' values'
  else row_loop_run fields items valueOrder values = Broken.
Proof.
  intros Hconv.
  pose proof (row_loop_never_fails fields items (convertible_passed _ Hconv)
                valueOrder values) as Hnf.
  destruct (row_loop_run fields items valueOrder values)
    as [vo vals| |err] eqn:Hrow.
  - apply row_loop_exhausted in Hrow. destruct Hrow as [Hall _].
    assert (Hin : forallb (fun item => str_in (fst item) fields) items = true).
    { apply forallb_forall. intros item Hi. apply str_in_In. apply Hall.
      now apply in_map. }
    rewrite Hin. eauto.
  - now rewrite (row_loop_broken _ _ _ _ Hrow).
  - exfalso. exact (Hnf err eq_refl).
Qed.

Lemma tables_loop_without_connection db_error tables device_name parsed :
  forallb convertible parsed = true ->
  tables_loop db_error tables device_name parsed None
  = (None,
     if existsb (fun entry => within_table (snd entry) parsed) tables
     then Some Py.AttributeError else None).
Proof.
  intros Hconv. induction tables as [|[key cfg] tables IH]; [reflexivity|].
  cbn [tables_loop existsb snd].
  pose proof (row_loop_convertible (DBTableConfig.fields cfg) parsed ""
                [Py.VStr device_name] Hconv) as Hrow.
  unfold within_table at 1.
  destruct (forallb (fun item => str_in (fst item) (DBTableConfig.fields cfg))
              parsed).
  - destruct Hrow as (vo & vals & ->). reflexivity.
  - rewrite Hrow. exact IH.
Qed.

Lemma tables_loop_no_fit db_error tables device_name parsed conn :
  forallb convertible parsed = true ->
  existsb (fun entry => within_table (snd entry) parsed) tables = false ->
  tables_loop db_error tables device_name parsed conn = (conn, None).
Proof.
  intros Hconv. induction tables as [|[key cfg] tables IH]; [reflexivity|].
  cbn [tables_loop existsb snd]. intros H. apply orb_false_iff in H.
  destruct H as [Hcfg Hrest].
  pose proof (row_loop_convertible (DBTableConfig.fields cfg) parsed ""
                [Py.VStr device_name] Hconv) as Hrow.
  unfold within_table in Hcfg. rewrite Hcfg in Hrow. rewrite Hrow.
  exact (IH Hrest).
Qed.

Lemma service_eta {DeviceCommand : Type} (self : MonitorService DeviceCommand) :
  {| devices := devices self; conn := conn self |} = self.
Proof. now destruct self. Qed.

(** X12.  A service that has no connection, [initDB] having failed, handles an
    event whose values can be converted as follows: nothing happens when
    no table takes the event, and [AttributeError] escapes when one does;
    the service is left as it is. *)
Theorem event_without_connection :
  forall (DeviceCommand : Type)
         (db_error : list db_op -> db_op -> option string)
         (self : MonitorService DeviceCommand)
         (msg : ParserMessage.t DeviceCommand),
    conn self = None ->
    forallb convertible (ParserMessage.parsed msg) = true ->
    _handle_message db_error self msg
    = (self,
       if fits_some_table (ParserMessage.parsed msg)
       then Some Py.AttributeError else None).
Proof.
  intros DeviceCommand db_error self msg Hconn Hconv.
  unfold _handle_message. rewrite Hconn.
  rewrite (tables_loop_without_connection _ _ _ _ Hconv).
  rewrite <- Hconn, service_eta. reflexivity.
Qed.

Lemma event_without_connection_witness :
  _handle_message Samples.accept_all Samples.lab Samples.pack_num_event
  = (Samples.lab, Some Py.AttributeError)
  /\ _handle_message Samples.accept_all Samples.lab Runs.current_event
     = (Samples.lab, None).
Proof.
  split.
  - apply (event_without_connection _ Samples.accept_all Samples.lab
             Samples.pack_num_event); reflexivity.
  - apply (event_without_connection _ Samples.accept_all Samples.lab
             Runs.current_event); reflexivity.
Defined.

(** X13.  An event that no table takes, because for each table it has a name
    which is no field of it, is dropped whole: with values that can be
    converted, nothing reaches the database, nothing is raised and the
    service is left as it is, whatever the connection and the server. *)
Theorem event_of_no_table_is_dropped :
  forall (DeviceCommand : Type)
         (db_error : list db_op -> db_op -> option string)
         (self : MonitorService DeviceCommand)
         (msg : ParserMessage.t DeviceCommand),
    fits_some_table (ParserMessage.parsed msg) = false ->
    forallb convertible (ParserMessage.parsed msg) = true ->
    _handle_message db_error self msg = (self, None).
Proof.
  intros DeviceCommand db_error self msg Hfit Hconv.
  unfold _handle_message.
  rewrite (tables_loop_no_fit _ _ _ _ _ Hconv Hfit).
  now rewrite service_eta.
Qed.

Lemma event_of_no_table_witness :
  _handle_message Samples.refuse_settings Samples.fresh Runs.current_event
  = (Samples.fresh, None).
Proof.
  apply (event_of_no_table_is_dropped _ Samples.refuse_settings Samples.fresh
           Runs.current_event); reflexivity.
Defined.

Lemma row_loop_without_cell_voltages fields items :
  str_in "cell_voltages" fields = false ->
  existsb (fun item => String.eqb (fst item) "cell_voltages") items = true ->
  forall valueOrder values,
    row_loop_run fields items valueOrder values = Broken.
Proof.
  intros Hout. induction items as [|[name value] rest IH];
    intros Hex valueOrder values; [discriminate|].
  cbn [row_loop_run]. destruct (str_in name fields) eqn:Hin; [|reflexivity].
  cbn [negb].
  assert (Hname : String.eqb name "cell_voltages" = false).
  { apply String.eqb_neq. intros ->. congruence. }
  cbn [existsb fst] in Hex. rewrite Hname in Hex. cbn [orb] in Hex.
  unfold convert_value. rewrite Hname. apply (IH Hex).
Qed.

Lemma row_loop_fails fields items :
  forallb (fun item => str_in (fst item) fields) items = true ->
  forallb convertible items = false ->
  forall valueOrder values,
    row_loop_run fields items valueOrder values = Failed Py.TypeError.
Proof.
  induction items as [|[name value] rest IH];
    intros Hin Hconv valueOrder values; [discriminate|].
  cbn [forallb fst] in Hin. apply andb_true_iff in Hin.
  destruct Hin as [Hname Hrest].
  cbn [row_loop_run]. rewrite Hname. cbn [negb].
  cbn [forallb] in Hconv. unfold convertible at 1 in Hconv.
  cbn [fst snd] in Hconv.
  destruct (convert_value name value) as [e|p] eqn:Hc.
  - apply convert_value_fails in Hc. destruct Hc as [_ ->]. reflexivity.
  - cbn [andb] in Hconv. apply (IH Hrest Hconv).
Qed.

Lemma not_convertible_has_cell_voltages items :
  forallb convertible items = false ->
  existsb (fun item => String.eqb (fst item) "cell_voltages") items = true.
Proof.
  induction items as [|[name value] rest IH]; [discriminate|].
  cbn [forallb existsb fst]. unfold convertible at 1. cbn [fst snd].
  destruct (convert_value name value) as [e|p] eqn:Hc.
  - apply convert_value_fails in Hc. destruct Hc as [-> _]. reflexivity.
  - cbn [andb]. intros H. rewrite (IH H). apply orb_true_r.
Qed.

(** X14.  An event whose names are all fields of [battery_pack_data] and whose
    cell voltages are not iterable, a number say, makes [_handle_message]
    raise [TypeError] before anything reaches the database; the service
    is left as it is. *)
Theorem scalar_cell_voltages_raise :
  forall (DeviceCommand : Type)
         (db_error : list db_op -> db_op -> option string)
         (self : MonitorService DeviceCommand)
         (msg : ParserMessage.t DeviceCommand)
         (tableConfig : DBTableConfig.t),
    dict_get "battery_pack_data" DATABASE_TABLES = Some tableConfig ->
    within_table tableConfig (ParserMessage.parsed msg) = true ->
    forallb convertible (ParserMessage.parsed msg) = false ->
    _handle_message db_error self msg = (self, Some Py.TypeError).
Proof.
  intros DeviceCommand db_error self msg tableConfig Hcfg Hin Hconv.
  cbn in Hcfg. injection Hcfg as <-.
  pose proof (not_convertible_has_cell_voltages _ Hconv) as Hcells.
  unfold _handle_message, DATABASE_TABLES. cbn [tables_loop].
  do 3 (rewrite row_loop_without_cell_voltages;
        [|reflexivity|exact Hcells]).
  unfold within_table in Hin.
  rewrite (row_loop_fails _ _ Hin Hconv).
  now rewrite service_eta.
Qed.

Lemma scalar_cell_voltages_witness :
  _handle_message Samples.accept_all Samples.fresh Runs.scalar_cells_event
  = (Samples.fresh, Some Py.TypeError).
Proof.
  apply (scalar_cell_voltages_raise _ Samples.accept_all Samples.fresh
           Runs.scalar_cells_event (Samples.table "battery_pack_data"));
    reflexivity.
Defined.

Lemma table_ops_executes device_name parsed tableConfig :
  (List.length (filter is_execute (table_ops device_name parsed tableConfig))
   <= 1)%nat.
Proof.
  unfold table_ops.
  destruct (row_loop_run (DBTableConfig.fields tableConfig) parsed ""
              [Py.VStr device_name]); cbn; lia.
Qed.

Lemma table_ops_first_name device_name name value rest tableConfig :
  str_in name (DBTableConfig.fields tableConfig) = false ->
  table_ops device_name ((name, value) :: rest) tableConfig = [].
Proof. intros H. unfold table_ops. cbn [row_loop_run]. now rewrite H. Qed.

Lemma str_in_both (name : string) (a b : list string) :
  str_in name a = true -> str_in name b = true ->
  str_in name (filter (fun x => str_in x b) a) = true.
Proof.
  intros Ha Hb. apply str_in_In. apply filter_In. split.
  - now apply str_in_In.
  - exact Hb.
Qed.

Lemma filter_prefix_length {A : Type} (p : A -> bool) (a b : list A) :
  (List.length (filter p a) <= List.length (filter p (a ++ b)))%nat.
Proof. rewrite filter_app, length_app. lia. Qed.

(** X15.  An event with at least one field is inserted into two tables at the
    most, whatever the server answers: no name is a field of three
    tables. *)
Theorem event_reaches_two_tables_at_most :
  forall (DeviceCommand : Type)
         (db_error : list db_op -> db_op -> option string)
         (self : MonitorService DeviceCommand)
         (msg : ParserMessage.t DeviceCommand) (history : list db_op),
    conn self = Some history ->
    ParserMessage.parsed msg <> [] ->
    exists ops,
      conn (fst (_handle_message db_error self msg))
      = Some (history ++ ops)%list
      /\ (List.length (filter is_execute ops) <= 2)%nat.
Proof.
  intros DeviceCommand db_error self msg history Hconn Hne.
  unfold _handle_message. rewrite Hconn.
  destruct (tables_loop db_error DATABASE_TABLES
              (device_name_of (ParserMessage.device msg))
              (ParserMessage.parsed msg) (Some history)) as [c e] eqn:Hloop.
  cbn [fst conn].
  destruct (tables_loop_trace _ _ _ _ _ _ _ Hloop)
    as (ops & rest & -> & Hplan & _).
  exists ops. split; [reflexivity|].
  pose proof (filter_prefix_length is_execute ops rest) as Hle.
  rewrite <- Hplan in Hle. clear Hplan Hloop.
  destruct (ParserMessage.parsed msg) as [|[name value] items]; [congruence|].
  unfold planned_ops, DATABASE_TABLES in Hle. cbn [flat_map snd] in Hle.
  rewrite app_nil_r, !filter_app, !length_app in Hle.
  set (dn := device_name_of (ParserMessage.device msg)) in *.
  set (g := {| DBTableConfig.table_name := "general_data";
               DBTableConfig.fields := _ |}) in *.
  set (i := {| DBTableConfig.table_name := "internal_data";
               DBTableConfig.fields := _ |}) in *.
  set (s := {| DBTableConfig.table_name := "settings_data";
               DBTableConfig.fields := _ |}) in *.
  set (b := {| DBTableConfig.table_name := "battery_pack_data";
               DBTableConfig.fields := _ |}) in *.
  pose proof (table_ops_executes dn ((name, value) :: items) g) as Lg.
  pose proof (table_ops_executes dn ((name, value) :: items) i) as Li.
  pose proof (table_ops_executes dn ((name, value) :: items) s) as Ls.
  pose proof (table_ops_executes dn ((name, value) :: items) b) as Lb.
  pose proof (table_ops_first_name dn name value items g) as Fg.
  pose proof (table_ops_first_name dn name value items i) as Fi.
  pose proof (table_ops_first_name dn name value items s) as Fs.
  pose proof (table_ops_first_name dn name value items b) as Fb.
  pose proof (str_in_both name (DBTableConfig.fields g) (DBTableConfig.fields i))
    as Dgi.
  pose proof (str_in_both name (DBTableConfig.fields g) (DBTableConfig.fields b))
    as Dgb.
  pose proof (str_in_both name (DBTableConfig.fields i) (DBTableConfig.fields s))
    as Dis.
  destruct (str_in name (DBTableConfig.fields g)) eqn:Hg;
    destruct (str_in name (DBTableConfig.fields i)) eqn:Hi;
    destruct (str_in name (DBTableConfig.fields s)) eqn:Hs;
    destruct (str_in name (DBTableConfig.fields b)) eqn:Hb;
    try (specialize (Dgi eq_refl eq_refl); discriminate);
    try (specialize (Dgb eq_refl eq_refl); discriminate);
    try (specialize (Dis eq_refl eq_refl); discriminate);
    try rewrite (Fg eq_refl) in *; try rewrite (Fi eq_refl) in *;
    try rewrite (Fs eq_refl) in *; try rewrite (Fb eq_refl) in *;
    cbn [filter List.length] in *; lia.
Qed.

(** The event with the single field [pack_num], which two tables list,
    gives two inserts. *)
Lemma two_tables_witness :
  exists ops,
    conn (fst (_handle_message Samples.accept_all Samples.fresh
                 Samples.pack_num_event)) = Some ([] ++ ops)%list
    /\ (List.length (filter is_execute ops) <= 2)%nat.
Proof.
  apply (event_reaches_two_tables_at_most _ Samples.accept_all Samples.fresh
           Samples.pack_num_event []).
  - reflexivity.
  - discriminate.
Defined.

(** * Further properties of the message loop and of [run] *)

Lemma handle_message_keeps_devices {DeviceCommand : Type} db_error
      (self : MonitorService DeviceCommand) msg :
  devices (fst (_handle_message db_error self msg)) = devices self.
Proof.
  unfold _handle_message.
  now destruct (tables_loop db_error DATABASE_TABLES _ _ (conn self)).
Qed.

Lemma register_devices {DeviceCommand : Type}
      (self : MonitorService DeviceCommand) device :
  devices (fst (register_if_absent self device))
  = (devices self
     ++ (if device_in device (devices self) then [] else [device]))%list.
Proof.
  unfold register_if_absent.
  destruct (device_in device (devices self)); cbn; [now rewrite app_nil_r|].
  reflexivity.
Qed.

Lemma device_in_app {DeviceCommand : Type}
      (device : BluettiDevice.t DeviceCommand) a b :
  device_in device a = true -> device_in device (a ++ b)%list = true.
Proof. unfold device_in. rewrite existsb_app. now intros ->. Qed.

Lemma absent_oid {DeviceCommand : Type}
      (device : BluettiDevice.t DeviceCommand) l :
  device_in device l = false -> ~ In (BluettiDevice.oid device) (oids l).
Proof.
  unfold device_in, oids. intros H Hin. apply in_map_iff in Hin.
  destruct Hin as [d [Hoid Hd]].
  assert (E : existsb
                (fun d0 => (BluettiDevice.oid d0 =? BluettiDevice.oid device)%nat
                           || BluettiDevice.eqb device d0) l = true).
  { apply existsb_exists. exists d. split; [exact Hd|].
    rewrite Hoid. now rewrite Nat.eqb_refl. }
  congruence.
Qed.

Lemma register_keeps_NoDup {DeviceCommand : Type}
      (self : MonitorService DeviceCommand) device :
  NoDup (oids (devices self)) ->
  NoDup (oids (devices (fst (register_if_absent self device)))).
Proof.
  intros Hnd. rewrite register_devices.
  destruct (device_in device (devices self)) eqn:Hin.
  - now rewrite app_nil_r.
  - unfold oids. rewrite map_app. apply NoDup_app; [exact Hnd| |].
    + cbn. constructor; [intros []|constructor].
    + intros a Ha [<-|[]]. exact (absent_oid _ _ Hin Ha).
Qed.

Lemma register_makes_present {DeviceCommand : Type}
      (self : MonitorService DeviceCommand) device :
  device_in device (devices (fst (register_if_absent self device))) = true.
Proof.
  rewrite register_devices.
  destruct (device_in device (devices self)) eqn:Hin.
  - now rewrite app_nil_r.
  - apply device_in_after_init.
Qed.

(** X16.  The message loop only ever appends to the device list, and only
    devices of the messages it handled; it keeps the object identities in
    the list distinct; and when it ends without an exception, the device
    of every message is in the list. *)
Theorem message_loop_registers_devices :
  forall (DeviceCommand : Type)
         (db_error : list db_op -> db_op -> option string)
         (queue : list (ParserMessage.t DeviceCommand))
         (self self' : MonitorService DeviceCommand) (e : option Py.exn),
    _handle_messages db_error self queue = (self', e) ->
    (exists new,
        devices self' = (devices self ++ new)%list
        /\ forall d, In d new ->
                     exists msg, In msg queue /\ ParserMessage.device msg = d)
    /\ (NoDup (oids (devices self)) -> NoDup (oids (devices self')))
    /\ (e = None ->
        forall msg, In msg queue ->
                    device_in (ParserMessage.device msg) (devices self')
                    = true).
Proof.
  intros DeviceCommand db_error queue.
  induction queue as [|msg rest IH]; intros self self' e H.
  - cbn in H. injection H as <- <-. repeat split.
    + exists []. rewrite app_nil_r. split; [reflexivity|intros ? []].
    + trivial.
    + intros _ ? [].
  - cbn [_handle_messages] in H. unfold handle_messages_turn in H.
    set (s0 := fst (register_if_absent self (ParserMessage.device msg))) in *.
    pose proof (handle_message_keeps_devices db_error s0 msg) as Hkeep.
    destruct (_handle_message db_error s0 msg) as [s1 e1].
    cbn [fst] in Hkeep.
    assert (Hnew : exists new,
               devices s1 = (devices self ++ new)%list
               /\ forall d, In d new -> ParserMessage.device msg = d).
    { rewrite Hkeep. unfold s0. rewrite register_devices.
      eexists. split; [reflexivity|].
      destruct (device_in _ _); intros d Hd; [destruct Hd|].
      destruct Hd as [<-|[]]. reflexivity. }
    assert (Hnd : NoDup (oids (devices self)) -> NoDup (oids (devices s1))).
    { rewrite Hkeep. apply register_keeps_NoDup. }
    assert (Hpresent : device_in (ParserMessage.device msg) (devices s1)
                       = true).
    { rewrite Hkeep. apply register_makes_present. }
    destruct Hnew as (new1 & Hd1 & Hfrom1).
    destruct e1 as [err|].
    + injection H as <- <-. repeat split.
      * exists new1. split; [exact Hd1|].
        intros d Hd. exists msg. split; [now left|now apply Hfrom1].
      * exact Hnd.
      * discriminate.
    + destruct (IH _ _ _ H) as ((new & Hd & Hfrom) & Hnd' & Hall).
      repeat split.
      * exists (new1 ++ new)%list. split.
        { now rewrite Hd, Hd1, app_assoc. }
        intros d Hin. apply in_app_or in Hin. destruct Hin as [Hin|Hin].
        { exists msg. split; [now left|now apply Hfrom1]. }
        destruct (Hfrom d Hin) as (m & Hm & Hdev).
        exists m. split; [now right|exact Hdev].
      * intros Hself. apply Hnd'. now apply Hnd.
      * intros He m [<-|Hm].
        { rewrite Hd. now apply device_in_app. }
        now apply Hall.
Qed.

(** Three messages of one device object: the list holds it once. *)
Lemma message_loop_registers_witness :
  NoDup
    (oids (devices
             (fst (_handle_messages Samples.accept_all Samples.fresh
                     [Samples.pack_num_event; Runs.current_event;
                      Samples.battery_pack_event])))).
Proof.
  destruct (message_loop_registers_devices _ Samples.accept_all
              [Samples.pack_num_event; Runs.current_event;
               Samples.battery_pack_event]
              Samples.fresh
              (fst (_handle_messages Samples.accept_all Samples.fresh
                      [Samples.pack_num_event; Runs.current_event;
                       Samples.battery_pack_event]))
              (snd (_handle_messages Samples.accept_all Samples.fresh
                      [Samples.pack_num_event; Runs.current_event;
                       Samples.battery_pack_event]))
              eq_refl) as (_ & Hnd & _).
  apply Hnd. constructor.
Defined.


Lemma tables_loop_conn_presence db_error tables device_name parsed :
  forall conn c e,
    tables_loop db_error tables device_name parsed conn = (c, e) ->
    (c = None <-> conn = None).
Proof.
  induction tables as [|[key cfg] tables IH]; intros conn c e H.
  - cbn in H. injection H as <- <-. tauto.
  - cbn [tables_loop] in H.
    destruct (row_loop_run (DBTableConfig.fields cfg) parsed ""
                [Py.VStr device_name]) as [vo vals| |err].
    + unfold insert_and_commit in H. destruct conn as [history|].
      * destruct (db_error history _) as [cause|].
        { injection H as <- <-. split; discriminate. }
        destruct (db_error (history ++ _)%list Commit) as [cause|].
        { injection H as <- <-. split; discriminate. }
        apply IH in H. rewrite H. split; discriminate.
      * injection H as <- <-. tauto.
    + exact (IH _ _ _ H).
    + injection H as <- <-. tauto.
Qed.

Lemma message_loop_conn_presence {DeviceCommand : Type} db_error
      (queue : list (ParserMessage.t DeviceCommand)) :
  forall self self' e,
    _handle_messages db_error self queue = (self', e) ->
    (conn self' = None <-> conn self = None).
Proof.
  induction queue as [|msg rest IH]; intros self self' e H.
  - cbn in H. injection H as <- <-. tauto.
  - cbn [_handle_messages] in H.
    unfold handle_messages_turn, _handle_message in H.
    rewrite register_keeps_conn in H.
    destruct (tables_loop db_error DATABASE_TABLES _ _ (conn self))
      as [c e1] eqn:Hloop.
    apply tables_loop_conn_presence in Hloop.
    destruct e1 as [err|].
    + injection H as <- <-. exact Hloop.
    + apply IH in H. cbn [conn] in H. tauto.
Qed.

(** X18.  [run] closes the connection in one case only: the service has a
    connection and no message raised before the task was cancelled.  When
    handling a message raises, that exception escapes [run] and the
    connection is left open; when there is no connection, it is the
    [AttributeError] of [self.conn.close()] that escapes. *)
Theorem run_closes_the_connection_after_a_clean_run_only :
  forall (DeviceCommand : Type)
         (db_error : list db_op -> db_op -> option string)
         (self : MonitorService DeviceCommand)
         (queue : list (ParserMessage.t DeviceCommand)),
    let outcome := run db_error self queue in
    let handled := _handle_messages db_error self queue in
    (closed outcome = true <->
     conn self <> None /\ snd handled = None)
    /\ (closed outcome = true <-> escaped outcome = None)
    /\ (forall e, snd handled = Some e ->
                  escaped outcome = Some e /\ closed outcome = false)
    /\ (conn self = None -> snd handled = None ->
        escaped outcome = Some Py.AttributeError)
    /\ service outcome = fst handled.
Proof.
  intros DeviceCommand db_error self queue outcome handled.
  unfold outcome, handled, run.
  destruct (_handle_messages db_error self queue) as [s e] eqn:H.
  pose proof (message_loop_conn_presence _ _ _ _ _ H) as Hconn.
  cbn [fst snd]. destruct e as [err|].
  - cbn. repeat split; try discriminate; try tauto;
      try (intros [_ E]; discriminate);
      try (intros e E; now injection E as <-).
  - destruct (conn s) as [h|] eqn:Hs; cbn.
    + repeat split; try discriminate; try tauto;
        try (intros E; apply Hconn in E; discriminate).
    + repeat split; try discriminate; try tauto;
        try (intros [Hne _]; exfalso; apply Hne; now apply Hconn).
Qed.

(** With values that can be converted, handling messages without a
    connection raises nothing but [AttributeError]. *)
Lemma message_loop_without_connection {DeviceCommand : Type} db_error
      (queue : list (ParserMessage.t DeviceCommand)) :
  forallb (fun msg => forallb convertible (ParserMessage.parsed msg)) queue
  = true ->
  forall self,
    conn self = None ->
    snd (_handle_messages db_error self queue) = None
    \/ snd (_handle_messages db_error self queue) = Some Py.AttributeError.
Proof.
  induction queue as [|msg rest IH]; intros Hconv self Hconn; [now left|].
  cbn [forallb] in Hconv. apply andb_true_iff in Hconv.
  destruct Hconv as [Hmsg Hrest].
  cbn [_handle_messages]. unfold handle_messages_turn, _handle_message.
  rewrite register_keeps_conn, Hconn.
  rewrite (tables_loop_without_connection _ _ _ _ Hmsg).
  destruct (existsb _ DATABASE_TABLES); [now right|].
  apply (IH Hrest). reflexivity.
Qed.

(** X19.  A service whose connection to the database failed at start is started
    all the same and never ends cleanly: with values that can be
    converted, [AttributeError] escapes [run], at the first event a table
    takes or else at the cancellation, and nothing is ever closed. *)
Theorem service_without_database_ends_in_AttributeError :
  forall (DeviceCommand : Type)
         (db_error : list db_op -> db_op -> option string)
         (cause : string) (queue : list (ParserMessage.t DeviceCommand)),
    forallb (fun msg => forallb convertible (ParserMessage.parsed msg)) queue
    = true ->
    let outcome := run db_error (__init__ DeviceCommand (Some cause)) queue in
    escaped outcome = Some Py.AttributeError
    /\ closed outcome = false
    /\ conn (service outcome) = None.
Proof.
  intros DeviceCommand db_error cause queue Hconv outcome.
  unfold outcome, run.
  pose proof (message_loop_without_connection db_error queue Hconv
                (__init__ DeviceCommand (Some cause)) eq_refl) as He.
  destruct (_handle_messages db_error (__init__ DeviceCommand (Some cause))
              queue) as [s e] eqn:H.
  pose proof (proj2 (message_loop_conn_presence _ _ _ _ _ H) eq_refl) as Hs.
  cbn [snd] in He. destruct He as [->| ->].
  - rewrite Hs. cbn. auto.
  - cbn. auto.
Qed.

Lemma service_without_database_witness :
  escaped (run Samples.accept_all
             (__init__ (string * Py.value) (Some "Can't connect to server"))
             [Runs.current_event; Samples.pack_num_event])
  = Some Py.AttributeError.
Proof.
  apply (service_without_database_ends_in_AttributeError _
           Samples.accept_all "Can't connect to server"
           [Runs.current_event; Samples.pack_num_event]).
  reflexivity.
Defined.

Lemma tables_loop_accepted db_error tables device_name parsed history :
  (forall h op, db_error h op = None) ->
  forallb convertible parsed = true ->
  tables_loop db_error tables device_name parsed (Some history)
  = (Some (history ++ planned_ops tables device_name parsed)%list, None).
Proof.
  intros Hacc Hconv.
  pose proof (tables_loop_completes db_error tables device_name parsed Hacc
                (convertible_passed _ Hconv) history) as Hdone.
  destruct (tables_loop db_error tables device_name parsed (Some history))
    as [c e] eqn:Hloop.
  cbn [snd] in Hdone. subst e.
  destruct (tables_loop_trace _ _ _ _ _ _ _ Hloop)
    as (ops & rest & -> & Hplan & Hrest).
  rewrite (Hrest eq_refl), app_nil_r in Hplan. now subst ops.
Qed.

(** X20.  With a server that accepts every statement and values that can
    be converted, the message loop raises nothing, and the connection
    gains, message after message in the order of arrival, exactly what
    each message alone makes a fresh connection carry out: nothing is
    reordered, merged or lost. *)
Theorem message_loop_persists_in_order :
  forall (DeviceCommand : Type)
         (db_error : list db_op -> db_op -> option string)
         (queue : list (ParserMessage.t DeviceCommand))
         (self : MonitorService DeviceCommand) (history : list db_op),
    (forall h op, db_error h op = None) ->
    forallb (fun msg => forallb convertible (ParserMessage.parsed msg)) queue
    = true ->
    conn self = Some history ->
    snd (_handle_messages db_error self queue) = None
    /\ conn (fst (_handle_messages db_error self queue))
       = Some (history ++ flat_map (alone db_error) queue)%list.
Proof.
  intros DeviceCommand db_error queue self history Hacc.
  revert self history.
  induction queue as [|msg rest IH]; intros self history Hconv Hconn.
  - cbn. now rewrite app_nil_r.
  - cbn [forallb] in Hconv. apply andb_true_iff in Hconv.
    destruct Hconv as [Hmsg Hrest].
    cbn [_handle_messages flat_map].
    unfold handle_messages_turn, _handle_message.
    rewrite register_keeps_conn, Hconn.
    rewrite (tables_loop_accepted _ _ _ _ _ Hacc Hmsg).
    assert (Halone : alone db_error msg
                     = planned_ops DATABASE_TABLES
                         (device_name_of (ParserMessage.device msg))
                         (ParserMessage.parsed msg)).
    { unfold alone, _handle_message. cbn [conn].
      now rewrite (tables_loop_accepted _ _ _ _ _ Hacc Hmsg). }
    rewrite Halone, app_assoc.
    apply (IH _ _ Hrest). reflexivity.
Qed.

Lemma message_loop_persists_witness :
  conn (fst (_handle_messages Samples.accept_all Samples.fresh
               [Samples.battery_pack_event; Runs.current_event;
                Samples.pack_num_event]))
  = Some ([] ++ flat_map (alone Samples.accept_all)
                  [Samples.battery_pack_event; Runs.current_event;
                   Samples.pack_num_event])%list.
Proof.
  apply (message_loop_persists_in_order _ Samples.accept_all
           [Samples.battery_pack_event; Runs.current_event;
            Samples.pack_num_event] Samples.fresh []).
  - intros h op. reflexivity.
  - reflexivity.
  - reflexivity.
Defined.

(** X21.  Every field of [NORMAL_DEVICE_FIELDS] can be named by a command
    topic, for any type of word characters and any serial number of
    digits; no field of [DC_INPUT_FIELDS] can, whatever the topic, since
    their names end in a digit and [COMMAND_TOPIC_RE] has no digit in a
    field. *)
Theorem fields_a_topic_can_name :
  (forall type serial field : string,
      Py.all_chars is_word type = true -> type <> EmptyString ->
      Py.all_chars is_decimal serial = true -> serial <> EmptyString ->
      In field (keys NORMAL_DEVICE_FIELDS) ->
      COMMAND_TOPIC_RE_match (command_topic type serial field)
      = Some (type, serial, field))
  /\ (forall topic m1 m2 m3 : string,
         COMMAND_TOPIC_RE_match topic = Some (m1, m2, m3) ->
         ~ In m3 (keys DC_INPUT_FIELDS)).
Proof.
  split.
  - intros type serial field Ht Hnt Hs Hns Hin.
    assert (Hid : is_identifier field = true).
    { assert (Hall : forallb is_identifier (keys NORMAL_DEVICE_FIELDS) = true)
        by reflexivity.
      rewrite forallb_forall in Hall. now apply Hall. }
    unfold is_identifier in Hid. apply andb_true_iff in Hid.
    destruct Hid as [Hf Hnf].
    apply COMMAND_TOPIC_RE_match_language. unfold command_topic.
    repeat split; try assumption; [|now left].
    intros ->. discriminate.
  - intros topic m1 m2 m3 Hm Hin.
    apply COMMAND_TOPIC_RE_match_language in Hm.
    destruct Hm as (_ & _ & (Hf & _) & _).
    cbn in Hin. destruct Hin as [<-|[<-|[<-|[]]]]; discriminate.
Qed.

Lemma fields_a_topic_can_name_witness :
  COMMAND_TOPIC_RE_match (command_topic "EP500P" "2145000123" "led_mode")
  = Some ("EP500P", "2145000123", "led_mode").
Proof.
  apply (proj1 fields_a_topic_can_name "EP500P" "2145000123" "led_mode");
    try (reflexivity || discriminate).
  unfold keys, NORMAL_DEVICE_FIELDS. cbn [map fst In]. tauto.
Defined.
